(** * A shallow embedding of the terminal chatbot ([src/chatbot.py])

    The program is one class, [TerminalChatbot], whose methods mutate the
    object, print to the terminal and talk to a completion service over
    HTTP.  The embedding keeps that shape:

    - Python values that come back from [json.loads] are a tagged union
      ([pyval]); [in], subscripting, [len], slicing and [+] are partial
      operations that raise the exception Python raises;
    - a method is a function from the object (and whatever the environment
      supplies during the call: the reply of [urlopen], a line typed by the
      user, the clock) to its completion, the object afterwards and the
      terminal effects it produced;
    - what belongs to the interpreter and its libraries rather than to the
      repository ([json.loads], [str()], the text of exception messages,
      the Unicode tables behind [strip], [lower], [isdigit] and [int]) is
      the interface [Runtime]; every theorem holds for every runtime, and
      [Replay] provides one to run concrete exchanges. *)

From Stdlib Require Import ZArith List String Ascii Bool Lia.
From Stdlib Require Import Strings.Byte Numbers.DecimalString.
From stdpp Require Import base option list.
Import ListNotations.
Local Open Scope Z_scope.
Set Warnings "-register-all".

(** ** Text *)

(** A Python [str] is a sequence of Unicode code points: [len] counts
    code points and a slice cuts between them. *)
Definition pystr : Type := list Z.

Definition byte_val (b : byte) : Z := Z.of_N (Byte.to_N b).

Definition is_continuation (b : Z) : bool := Z.land b 0xC0 =? 0x80.

Definition in_range (lo hi x : Z) : bool := (lo <=? x) && (x <=? hi).

(** Strict UTF-8 decoding of a sequence of byte values, as done by
    [bytes.decode('utf-8')]: [None] where Python raises
    [UnicodeDecodeError] (stray or missing continuation bytes, overlong
    forms, surrogates, code points above U+10FFFF). *)
Fixpoint utf8_decode (bs : list Z) : option pystr :=
  match bs with
  | [] => Some []
  | b0 :: rest =>
    if b0 <? 0x80 then cons b0 <$> utf8_decode rest
    else if in_range 0xC0 0xDF b0 then
      match rest with
      | b1 :: rest' =>
        let cp := Z.lor (Z.shiftl (Z.land b0 0x1F) 6) (Z.land b1 0x3F) in
        if is_continuation b1 && (0x80 <=? cp)
        then cons cp <$> utf8_decode rest' else None
      | _ => None
      end
    else if in_range 0xE0 0xEF b0 then
      match rest with
      | b1 :: b2 :: rest' =>
        let cp := Z.lor (Z.shiftl (Z.land b0 0x0F) 12)
                   (Z.lor (Z.shiftl (Z.land b1 0x3F) 6) (Z.land b2 0x3F)) in
        if is_continuation b1 && is_continuation b2
           && (0x800 <=? cp) && negb (in_range 0xD800 0xDFFF cp)
        then cons cp <$> utf8_decode rest' else None
      | _ => None
      end
    else if in_range 0xF0 0xF4 b0 then
      match rest with
      | b1 :: b2 :: b3 :: rest' =>
        let cp := Z.lor (Z.shiftl (Z.land b0 0x07) 18)
                   (Z.lor (Z.shiftl (Z.land b1 0x3F) 12)
                     (Z.lor (Z.shiftl (Z.land b2 0x3F) 6) (Z.land b3 0x3F))) in
        if is_continuation b1 && is_continuation b2 && is_continuation b3
           && in_range 0x10000 0x10FFFF cp
        then cons cp <$> utf8_decode rest' else None
      | _ => None
      end
    else None
  end.

(** A string literal of the source.  The literals of this file are
    written in UTF-8, like those of [chatbot.py]. *)
Definition lit (s : string) : pystr :=
  default [] (utf8_decode (byte_val <$> list_byte_of_string s)).
#[global] Arguments lit : simpl never.

(** The bytes of a literal, for request and response bodies. *)
Definition bytes_lit (s : string) : list byte := list_byte_of_string s.

(** JSON texts are written with ['] standing for the double quote. *)
Definition json_quotes (b : byte) : byte :=
  if Byte.eqb b "'"%byte then x22 else b.
Definition json_lit (s : string) : list byte := json_quotes <$> bytes_lit s.

(** [str(n)] for an [int]. *)
Definition str_of_int (n : Z) : pystr := lit (NilZero.string_of_int (Z.to_int n)).

(** The format specification [{n:2d}]: decimal, right-aligned in a field
    of width 2. *)
Definition format_2d (n : Z) : pystr :=
  let s := str_of_int n in replicate (2 - length s)%nat 32 ++ s.

Fixpoint starts_with (p s : pystr) : bool :=
  match p, s with
  | [], _ => true
  | _ :: _, [] => false
  | a :: p', b :: s' => (a =? b) && starts_with p' s'
  end.

(** [p in s] for two strings: [p] occurs in [s]. *)
Fixpoint occurs_in (p s : pystr) : bool :=
  starts_with p s || match s with [] => false | _ :: s' => occurs_in p s' end.

(** [s[-n:]]: the last [n] characters, all of [s] when it is shorter. *)
Definition last_chars (n : nat) (s : pystr) : pystr := drop (length s - n)%nat s.

(** ** Values and exceptions *)

(** What [json.loads] can return.  A number with a fraction or an exponent
    is a [float]; it is kept as the lexeme it was read from (no operation
    of the program computes with one). *)
Inductive pyval :=
| PNone
| PBool (b : bool)
| PInt (n : Z)
| PFloat (lexeme : pystr)
| PStr (s : pystr)
| PList (items : list pyval)
| PDict (entries : list (pystr * pyval)).

Inductive subscript := Key (k : pystr) | Index (i : Z).

(** The operation a [TypeError] comes from (its message depends on it). *)
Inductive pyop :=
| OpIn | OpGetItem (sub : subscript) | OpLen | OpSlice | OpAdd.

Inductive exn :=
| HTTPError (code : Z) (fp : list byte)   (* urllib.error.HTTPError: status and unread body *)
| URLError (reason : pystr)
| KeyError (key : pyval)
| IndexError (seq : pyval)
| TypeError (op : pyop) (operand : pyval)
| ValueError (arg : pystr)
| UnicodeDecodeError (data : list byte)
| JSONDecodeError (doc : pystr)
| EOFError
| OtherException (name msg : pystr)       (* any other subclass of Exception *)
| KeyboardInterrupt.                      (* a BaseException, not an Exception *)

(** [except Exception] matches everything but [KeyboardInterrupt]. *)
Definition is_Exception (e : exn) : bool :=
  match e with KeyboardInterrupt => false | _ => true end.

(** The completion of an expression or a call: a value, or an exception
    in flight. *)
Inductive outcome (A : Type) :=
| Ok (a : A)
| Raise (e : exn).
Arguments Ok {A} a.
Arguments Raise {A} e.

#[global] Instance outcome_ret : MRet outcome := @Ok.
#[global] Instance outcome_bind : MBind outcome := λ A B f m,
  match m with Ok a => f a | Raise e => Raise e end.

Definition bytes_decode (data : list byte) : outcome pystr :=
  match utf8_decode (byte_val <$> data) with
  | Some s => Ok s
  | None => Raise (UnicodeDecodeError data)
  end.

(** ** The operations of the language the program uses on parsed JSON *)

Fixpoint dict_get (k : pystr) (d : list (pystr * pyval)) : option pyval :=
  match d with
  | [] => None
  | (k', v) :: d' => if bool_decide (k' = k) then Some v else dict_get k d'
  end.

Definition is_str (k : pystr) (v : pyval) : bool :=
  match v with PStr s => bool_decide (s = k) | _ => false end.

(** [k in v] for a string [k]. *)
Definition py_contains (k : pystr) (v : pyval) : outcome bool :=
  match v with
  | PDict d => Ok (bool_decide (is_Some (dict_get k d)))
  | PList l => Ok (existsb (is_str k) l)
  | PStr s => Ok (occurs_in k s)
  | _ => Raise (TypeError OpIn v)
  end.

(** [l[i]] on a sequence: a negative index counts from the end. *)
Definition seq_index {A} (l : list A) (i : Z) : option A :=
  let j := if i <? 0 then i + Z.of_nat (length l) else i in
  if j <? 0 then None else l !! Z.to_nat j.

(** [v[sub]].  The keys of a parsed JSON object are strings, so an integer
    subscript finds nothing in a dict. *)
Definition py_getitem (v : pyval) (sub : subscript) : outcome pyval :=
  match v, sub with
  | PDict d, Key k =>
    match dict_get k d with Some x => Ok x | None => Raise (KeyError (PStr k)) end
  | PDict d, Index i => Raise (KeyError (PInt i))
  | PList l, Index i =>
    match seq_index l i with Some x => Ok x | None => Raise (IndexError v) end
  | PStr s, Index i =>
    match seq_index s i with Some c => Ok (PStr [c]) | None => Raise (IndexError v) end
  | _, _ => Raise (TypeError (OpGetItem sub) v)
  end.

Definition py_len (v : pyval) : outcome Z :=
  match v with
  | PStr s => Ok (Z.of_nat (length s))
  | PList l => Ok (Z.of_nat (length l))
  | PDict d => Ok (Z.of_nat (length d))
  | _ => Raise (TypeError OpLen v)
  end.

(** [v[:n]].  A dict rejects a slice ([TypeError: unhashable type], a
    [KeyError] from Python 3.12 on). *)
Definition py_slice_to (v : pyval) (n : nat) : outcome pyval :=
  match v with
  | PStr s => Ok (PStr (take n s))
  | PList l => Ok (PList (take n l))
  | _ => Raise (TypeError OpSlice v)
  end.

(** [v + "s"] with a string on the right: only a string accepts it. *)
Definition py_add_str (v : pyval) (s : pystr) : outcome pyval :=
  match v with
  | PStr t => Ok (PStr (t ++ s))
  | _ => Raise (TypeError OpAdd v)
  end.

(** ** The interpreter and its libraries *)

Class Runtime := {
  os_name : pystr;                        (* os.name *)
  json_loads : pystr → outcome pyval;      (* json.loads *)
  str_of : pyval → pystr;                 (* str(v), also what an f-string inserts *)
  str_of_PStr : ∀ s, str_of (PStr s) = s;
  exc_str : exn → pystr;                  (* str(e) *)
  str_strip : pystr → pystr;              (* s.strip() *)
  str_lower : pystr → pystr;              (* s.lower() *)
  str_isdigit : pystr → bool;             (* s.isdigit() *)
  int_of_str : pystr → outcome Z;          (* int(s) *)
}.

(** ** Messages, the object and what it does to the terminal *)

Inductive Role := user | assistant.

(** An entry of [conversation_history]: [{"role": ..., "content": ...}].
    The content of an assistant entry is whatever the service sent. *)
Record Message := { role : Role; content : pyval }.

Record TerminalChatbot := {
  api_key : pystr;
  conversation_history : list Message;
  api_url : pystr;
  model : pystr;
  max_tokens : Z;
}.

Record Request := {
  url : pystr;
  data : pyval;                      (* sent as [json.dumps(data).encode('utf-8')] *)
  headers : list (pystr * pystr);
}.

Inductive effect :=
| Print (text : pystr)               (* print(text) *)
| Prompt (text : pystr)              (* the prompt written by input(text) *)
| System (command : pystr).          (* os.system(command) *)

Definition nl : pystr := [10].

(** [__init__].  The source falls back to a credential written in the
    file when none is given; here the fallback is an argument. *)
Definition init (fallback_key : pystr) (key : option pystr) : TerminalChatbot :=
  {| api_key := match key with
                | Some (c :: k) => c :: k
                | _ => fallback_key
                end;
     conversation_history := [];
     api_url := lit "https://openrouter.ai/api/v1/chat/completions";
     model := lit "deepseek/deepseek-r1-0528:free";
     max_tokens := 1000 |}.

(** [self.conversation_history.append(msg)] *)
Definition append_history (msg : Message) (self : TerminalChatbot) : TerminalChatbot :=
  {| api_key := api_key self;
     conversation_history := conversation_history self ++ [msg];
     api_url := api_url self;
     model := model self;
     max_tokens := max_tokens self |}.

Definition set_model (name : pystr) (self : TerminalChatbot) : TerminalChatbot :=
  {| api_key := api_key self;
     conversation_history := conversation_history self;
     api_url := api_url self;
     model := name;
     max_tokens := max_tokens self |}.

Definition role_name (r : Role) : pystr :=
  match r with user => lit "user" | assistant => lit "assistant" end.

Definition message_value (m : Message) : pyval :=
  PDict [(lit "role", PStr (role_name (role m))); (lit "content", content m)].

Definition request_for (self : TerminalChatbot) : Request :=
  {| url := api_url self;
     data := PDict [(lit "model", PStr (model self));
                    (lit "messages", PList (message_value <$> conversation_history self));
                    (lit "max_tokens", PInt (max_tokens self));
                    (lit "temperature", PFloat (lit "0.7"))];
     headers := [(lit "Content-Type", lit "application/json");
                 (lit "Authorization", lit "Bearer " ++ api_key self)] |}.

Definition APOLOGY : pystr := lit "I'm sorry, I couldn't generate a response.".
Definition AUTH_FAILED : pystr := lit "❌ Authentication failed. Please check your API key.".
Definition RATE_LIMITED : pystr :=
  lit "❌ Rate limit exceeded. Please wait a moment and try again.".
Definition BAD_REQUEST : pystr := lit "❌ Bad request. Please check your message format.".
Definition ERROR_PREFIX : pystr := lit "❌ Error: ".
Definition INVALID_SELECTION : pystr := lit "❌ Invalid selection.".

Section Chatbot.
Context `{Runtime}.

(** *** [make_api_request] *)

(** Lines 57-63: the reply to return and, when there is a first choice,
    the assistant message to append. *)
Definition extract_response (result : pyval) (self : TerminalChatbot)
  : outcome (pyval * TerminalChatbot) :=
  has_choices ← py_contains (lit "choices") result;
  nonempty ← (if has_choices : bool
              then choices ← py_getitem result (Key (lit "choices"));
                   n ← py_len choices;
                   mret (0 <? n)
              else mret false);
  if nonempty : bool
  then choices ← py_getitem result (Key (lit "choices"));
       first ← py_getitem choices (Index 0);
       msg ← py_getitem first (Key (lit "message"));
       assistant_response ← py_getitem msg (Key (lit "content"));
       mret (assistant_response,
             append_history {| role := assistant; content := assistant_response |} self)
  else mret (PStr APOLOGY, self).

(** Lines 74-80: the text for a status other than 401, 429 and 400.  The
    inner [try] has a bare [except], so whatever goes wrong while looking
    for [error.message] leads to the text with the status and the body. *)
Definition api_error_text (code : Z) (error_msg : pystr) : pystr :=
  let nested : outcome (option pystr) :=
    error_data ← json_loads error_msg;
    has_error ← py_contains (lit "error") error_data;
    has_message ← (if has_error : bool
                   then err ← py_getitem error_data (Key (lit "error"));
                        py_contains (lit "message") err
                   else mret false);
    if has_message : bool
    then err ← py_getitem error_data (Key (lit "error"));
         m ← py_getitem err (Key (lit "message"));
         mret (Some (lit "❌ API Error: " ++ str_of m))
    else mret None in
  match nested with
  | Ok (Some text) => text
  | _ => lit "❌ API Error (" ++ str_of_int code ++ lit "): " ++ error_msg
  end.

(** Lines 65-80: the handler of [urllib.error.HTTPError].  The body is
    read and decoded before the status is looked at, and nothing guards
    that statement. *)
Definition on_http_error (code : Z) (fp : list byte) : outcome pyval :=
  error_msg ← bytes_decode fp;
  if code =? 401 then mret (PStr AUTH_FAILED)
  else if code =? 429 then mret (PStr RATE_LIMITED)
  else if code =? 400 then mret (PStr BAD_REQUEST)
  else mret (PStr (api_error_text code error_msg)).

(** [urlopen] is what the network does with the request of this call: it
    hands back the body of a 2xx response or raises. *)
Definition make_api_request (urlopen : Request → outcome (list byte))
    (message : pystr) (self : TerminalChatbot) : outcome pyval * TerminalChatbot :=
  let self := append_history {| role := user; content := PStr message |} self in
  let attempt : outcome (pyval * TerminalChatbot) :=
    body ← urlopen (request_for self);
    text ← bytes_decode body;
    result ← json_loads text;
    extract_response result self in
  match attempt with
  | Ok (response, self') => (Ok response, self')
  | Raise (HTTPError code fp) => (on_http_error code fp, self)
  | Raise e =>
    if is_Exception e then (Ok (PStr (ERROR_PREFIX ++ exc_str e)), self)
    else (Raise e, self)
  end.

(** *** The housekeeping methods

    A method that only prints returns its effects; one that can be left by
    an exception also returns its completion. *)

Definition clear_screen : list effect :=
  [System (if bool_decide (os_name = lit "nt") then lit "cls" else lit "clear")].

Definition print_header : list effect :=
  [Print (replicate 60 61);
   Print (lit "🤖 OPENAI TERMINAL CHATBOT");
   Print (replicate 60 61);
   Print (lit "Type 'quit', 'exit', or 'bye' to end the conversation");
   Print (lit "Type 'clear' to clear the screen");
   Print (lit "Type 'history' to see conversation history");
   Print (lit "Type 'help' for more commands");
   Print (replicate 60 45)].

Definition print_help : list effect :=
  [Print (nl ++ lit "📚 Available Commands:");
   Print (lit "  help     - Show this help message");
   Print (lit "  quit     - Exit the chatbot");
   Print (lit "  exit     - Exit the chatbot");
   Print (lit "  bye      - Exit the chatbot");
   Print (lit "  clear    - Clear the screen");
   Print (lit "  history  - Show conversation history");
   Print (lit "  reset    - Reset conversation history");
   Print (lit "  model    - Show current model information");
   Print (lit "  models   - Switch between available models");
   Print []].

(** Line 125:
    [msg['content'][:100] + "..." if len(msg['content']) > 100 else msg['content']] *)
Definition display_content (c : pyval) : outcome pyval :=
  n ← py_len c;
  if 100 <? n
  then head ← py_slice_to c 100; py_add_str head (lit "...")
  else mret c.

(** Lines 123-126: the line printed for the [i]-th message ([i] from 1),
    [timestamp] being what the clock reads then. *)
Definition history_line (i : Z) (timestamp : pystr) (msg : Message) : outcome pystr :=
  let role := match role msg with user => lit "You" | assistant => lit "AI" end in
  content ← display_content (content msg);
  mret (format_2d i ++ lit ". [" ++ timestamp ++ lit "] " ++ role ++ lit ": "
        ++ str_of content).

(** The loop of lines 122-126 from the [k]-th message on ([k] from 0);
    [clock k] is [datetime.now().strftime("%H:%M")] in that iteration.
    What was printed before an exception stays printed. *)
Fixpoint history_loop (clock : nat → pystr) (k : nat) (msgs : list Message)
  : outcome unit * list effect :=
  match msgs with
  | [] => (Ok (), [])
  | msg :: rest =>
    match history_line (Z.of_nat (S k)) (clock k) msg with
    | Ok line =>
      let '(r, out) := history_loop clock (S k) rest in (r, Print line :: out)
    | Raise e => (Raise e, [])
    end
  end.

Definition show_history (clock : nat → pystr) (self : TerminalChatbot)
  : outcome unit * list effect :=
  match conversation_history self with
  | [] => (Ok (), [Print (nl ++ lit "📝 No conversation history yet.")])
  | _ =>
    let top :=
      [Print (nl ++ lit "📝 Conversation History ("
              ++ str_of_int (Z.of_nat (length (conversation_history self)))
              ++ lit " messages):");
       Print (replicate 50 45)] in
    match history_loop clock 0 (conversation_history self) with
    | (Ok _, out) => (Ok (), top ++ out ++ [Print []])
    | (Raise e, out) => (Raise e, top ++ out)
    end
  end.

Definition reset_history (self : TerminalChatbot) : TerminalChatbot * list effect :=
  ({| api_key := api_key self;
      conversation_history := [];
      api_url := api_url self;
      model := model self;
      max_tokens := max_tokens self |},
   [Print (lit "🔄 Conversation history has been reset.")]).

Definition show_model_info (self : TerminalChatbot) : list effect :=
  [Print (nl ++ lit "🔧 Current Configuration:");
   Print (lit "  Model: " ++ model self);
   Print (lit "  Max Tokens: " ++ str_of_int (max_tokens self));
   Print (lit "  Messages in History: "
          ++ str_of_int (Z.of_nat (length (conversation_history self))));
   Print (lit "  API Key: " ++ take 20 (api_key self) ++ lit "..."
          ++ last_chars 10 (api_key self));
   Print []].

(** *** [switch_models] *)

Definition models : list pystr :=
  [lit "gpt-3.5-turbo"; lit "gpt-4"; lit "gpt-4-turbo-preview"].

(** Lines 152-154, from the [k]-th entry on. *)
Fixpoint model_menu (current : pystr) (k : nat) (ms : list pystr) : list effect :=
  match ms with
  | [] => []
  | m :: rest =>
    Print (lit "  " ++ str_of_int (Z.of_nat (S k)) ++ lit ". " ++ m
           ++ (if bool_decide (m = current) then lit " (current)" else []))
    :: model_menu current (S k) rest
  end.

(** Lines 157-166, the body of the [try]: [typed] is what [input] did. *)
Definition select_model (typed : outcome pystr) (self : TerminalChatbot)
  : outcome unit * TerminalChatbot * list effect :=
  match typed with
  | Raise e => (Raise e, self, [])
  | Ok line =>
    let choice := str_strip line in
    if bool_decide (choice ≠ []) && str_isdigit choice
    then match int_of_str choice with
         | Raise e => (Raise e, self, [])
         | Ok n =>
           let choice_idx := n - 1 in
           if (0 <=? choice_idx) && (choice_idx <? Z.of_nat (length models))
           then match models !! Z.to_nat choice_idx with
                | Some name =>
                  (Ok (), set_model name self,
                   [Print (lit "✅ Switched to model: " ++ name)])
                | None => (Raise (IndexError (PList (PStr <$> models))), self, [])
                end
           else (Ok (), self, [Print INVALID_SELECTION])
         end
    else (Ok (), self, [Print (lit "Cancelled.")])
  end.

Definition switch_models (typed : outcome pystr) (self : TerminalChatbot)
  : outcome unit * TerminalChatbot * list effect :=
  let menu :=
    Print (nl ++ lit "🤖 Available Models:") :: model_menu (model self) 0 models
    ++ [Prompt (nl ++ lit "Select model number (or press Enter to cancel): ")] in
  match select_model typed self with
  | (Ok _, self', out) => (Ok (), self', menu ++ out ++ [Print []])
  | (Raise e, self', out) =>
    if is_Exception e
    then (Ok (), self',
          menu ++ out ++ [Print (lit "❌ Error switching models: " ++ exc_str e); Print []])
    else (Raise e, self', menu ++ out)
  end.

(** *** [run] *)

(** What the environment supplies during one iteration of the loop. *)
Record Turn := {
  typed : outcome pystr;                       (* [input] at the prompt *)
  selection : outcome pystr;                   (* [input] in [switch_models] *)
  urlopen : Request → outcome (list byte);     (* the network *)
  clock : nat → pystr;                         (* the clock in [show_history] *)
}.

Inductive control := Continue | Break.

(** Lines 180-224, the body of the [try] in the loop. *)
Definition loop_try (t : Turn) (self : TerminalChatbot)
  : outcome control * TerminalChatbot * list effect :=
  let asked := [Prompt (nl ++ lit "💬 You: ")] in
  match typed t with
  | Raise e => (Raise e, self, asked)
  | Ok line =>
    let user_input := str_strip line in
    if bool_decide (user_input = []) then (Ok Continue, self, asked)
    else
      let command := str_lower user_input in
      if bool_decide (command ∈ [lit "quit"; lit "exit"; lit "bye"])
      then (Ok Break, self,
            asked ++ [Print (nl ++ lit "👋 Goodbye! Thanks for chatting with me!")])
      else if bool_decide (command = lit "clear")
      then (Ok Continue, self, asked ++ clear_screen ++ print_header)
      else if bool_decide (command = lit "help")
      then (Ok Continue, self, asked ++ print_help)
      else if bool_decide (command = lit "history")
      then let '(r, out) := show_history (clock t) self in
           (_ ← r; mret Continue, self, asked ++ out)
      else if bool_decide (command = lit "reset")
      then let '(self', out) := reset_history self in
           (Ok Continue, self', asked ++ out)
      else if bool_decide (command = lit "model")
      then (Ok Continue, self, asked ++ show_model_info self)
      else if bool_decide (command = lit "models")
      then let '(r, self', out) := switch_models (selection t) self in
           (_ ← r; mret Continue, self', asked ++ out)
      else
        let thinking := Print (nl ++ lit "🤔 AI is thinking...") in
        match make_api_request (urlopen t) user_input self with
        | (Ok response, self') =>
          (Ok Continue, self',
           asked ++ [thinking; Print (nl ++ lit "🤖 AI: " ++ str_of response)])
        | (Raise e, self') => (Raise e, self', asked ++ [thinking])
        end
  end.

(** One iteration, with the two handlers of lines 226-231. *)
Definition loop_body (t : Turn) (self : TerminalChatbot)
  : control * TerminalChatbot * list effect :=
  match loop_try t self with
  | (Ok c, self', out) => (c, self', out)
  | (Raise e, self', out) =>
    if is_Exception e
    then (Continue, self',
          out ++ [Print (nl ++ lit "❌ Unexpected error: " ++ exc_str e);
                  Print (lit "Please try again or type 'quit' to exit.")])
    else (Break, self',
          out ++ [Print (nl ++ nl ++ lit "👋 Goodbye! (Interrupted by user)")])
  end.

(** The [while True] loop over the turns the environment provides; when
    they run out the program is waiting at the prompt. *)
Fixpoint run_loop (turns : list Turn) (self : TerminalChatbot)
  : TerminalChatbot * list effect :=
  match turns with
  | [] => (self, [])
  | t :: rest =>
    match loop_body t self with
    | (Break, self', out) => (self', out)
    | (Continue, self', out) =>
      let '(self'', out') := run_loop rest self' in (self'', out ++ out')
    end
  end.

Definition run (turns : list Turn) (self : TerminalChatbot)
  : TerminalChatbot * list effect :=
  let '(self', out) := run_loop turns self in
  (self',
   clear_screen ++ print_header
   ++ [Print (lit "Hello! I'm your AI assistant. How can I help you today?")] ++ out).

(** [main]: the banner, then [run] on a new object. *)
Definition main (fallback_key : pystr) (turns : list Turn) : list effect :=
  [Print (lit "🚀 Starting OpenAI Terminal Chatbot..."); Print []]
  ++ (run turns (init fallback_key None)).2.

(** A sequence of calls to [make_api_request], each with the text and what
    the network does for it: the replies and the object at the end. *)
Fixpoint submit_all (calls : list (pystr * (Request → outcome (list byte))))
    (self : TerminalChatbot) : list (outcome pyval) * TerminalChatbot :=
  match calls with
  | [] => ([], self)
  | (message, net) :: rest =>
    let '(r, self') := make_api_request net message self in
    let '(rs, self'') := submit_all rest self' in
    (r :: rs, self'')
  end.
End Chatbot.

(** ** A runtime to replay concrete exchanges

    [Replay.runtime] implements the interface so that the methods can be
    run on concrete bodies and lines, the way CPython 3.11 runs them:

    - [strip], [isdigit] and [int] follow the Unicode 14 tables of that
      version (white space, digits, decimal digits); [int] accepts what
      [int(s)] accepts (white space around, a sign, underscores between
      digits) and has its limit of 4300 digits;
    - JSON is read the way [json.loads] reads it (white space, the six
      literals, integers, strings with their escapes and surrogate pairs,
      the last value of a repeated key), and a text it rejects is reported
      with the message, line, column and offset of [JSONDecodeError];
    - [str(e)] is worded as the interpreter words it; for a decoding error
      with the offending bytes, their position and the reason.

    What stays approximate: [lower] changes ASCII letters only, which is
    enough to recognise the commands (the other characters whose lower
    case has an ASCII letter are U+212A, giving [k], and U+0130, giving
    [i] and a combining dot, and no command is made with them); a float
    is printed as the lexeme it was read from; [repr] escapes only ASCII
    control characters; nesting is not limited in depth.  The theorems
    below do not depend on it. *)
Module Replay.

Definition in_ranges (table : list (Z * Z)) (c : Z) : bool :=
  existsb (λ r, in_range r.1 r.2 c) table.

(** The characters [str.isspace] accepts. *)
Definition WHITESPACE : list (Z * Z) :=
  [(0x0009, 0x000D); (0x001C, 0x0020); (0x0085, 0x0085); (0x00A0, 0x00A0);
   (0x1680, 0x1680); (0x2000, 0x200A); (0x2028, 0x2029); (0x202F, 0x202F);
   (0x205F, 0x205F); (0x3000, 0x3000)].

(** The characters [str.isdigit] accepts: the decimal digits of every
    script, and superscripts, subscripts and circled digits. *)
Definition DIGIT : list (Z * Z) :=
  [(0x0030, 0x0039); (0x00B2, 0x00B3); (0x00B9, 0x00B9); (0x0660, 0x0669);
   (0x06F0, 0x06F9); (0x07C0, 0x07C9); (0x0966, 0x096F); (0x09E6, 0x09EF);
   (0x0A66, 0x0A6F); (0x0AE6, 0x0AEF); (0x0B66, 0x0B6F); (0x0BE6, 0x0BEF);
   (0x0C66, 0x0C6F); (0x0CE6, 0x0CEF); (0x0D66, 0x0D6F); (0x0DE6, 0x0DEF);
   (0x0E50, 0x0E59); (0x0ED0, 0x0ED9); (0x0F20, 0x0F29); (0x1040, 0x1049);
   (0x1090, 0x1099); (0x1369, 0x1371); (0x17E0, 0x17E9); (0x1810, 0x1819);
   (0x1946, 0x194F); (0x19D0, 0x19DA); (0x1A80, 0x1A89); (0x1A90, 0x1A99);
   (0x1B50, 0x1B59); (0x1BB0, 0x1BB9); (0x1C40, 0x1C49); (0x1C50, 0x1C59);
   (0x2070, 0x2070); (0x2074, 0x2079); (0x2080, 0x2089); (0x2460, 0x2468);
   (0x2474, 0x247C); (0x2488, 0x2490); (0x24EA, 0x24EA); (0x24F5, 0x24FD);
   (0x24FF, 0x24FF); (0x2776, 0x277E); (0x2780, 0x2788); (0x278A, 0x2792);
   (0xA620, 0xA629); (0xA8D0, 0xA8D9); (0xA900, 0xA909); (0xA9D0, 0xA9D9);
   (0xA9F0, 0xA9F9); (0xAA50, 0xAA59); (0xABF0, 0xABF9); (0xFF10, 0xFF19);
   (0x104A0, 0x104A9); (0x10A40, 0x10A43); (0x10D30, 0x10D39); (0x10E60, 0x10E68);
   (0x11052, 0x1105A); (0x11066, 0x1106F); (0x110F0, 0x110F9); (0x11136, 0x1113F);
   (0x111D0, 0x111D9); (0x112F0, 0x112F9); (0x11450, 0x11459); (0x114D0, 0x114D9);
   (0x11650, 0x11659); (0x116C0, 0x116C9); (0x11730, 0x11739); (0x118E0, 0x118E9);
   (0x11950, 0x11959); (0x11C50, 0x11C59); (0x11D50, 0x11D59); (0x11DA0, 0x11DA9);
   (0x16A60, 0x16A69); (0x16AC0, 0x16AC9); (0x16B50, 0x16B59); (0x1D7CE, 0x1D7FF);
   (0x1E140, 0x1E149); (0x1E2F0, 0x1E2F9); (0x1E950, 0x1E959); (0x1F100, 0x1F10A);
   (0x1FBF0, 0x1FBF9)].

(** The digit zero of every run of ten decimal digits. *)
Definition DECIMAL_ZERO : list Z :=
  [0x0030; 0x0660; 0x06F0; 0x07C0; 0x0966; 0x09E6; 0x0A66; 0x0AE6;
   0x0B66; 0x0BE6; 0x0C66; 0x0CE6; 0x0D66; 0x0DE6; 0x0E50; 0x0ED0;
   0x0F20; 0x1040; 0x1090; 0x17E0; 0x1810; 0x1946; 0x19D0; 0x1A80;
   0x1A90; 0x1B50; 0x1BB0; 0x1C40; 0x1C50; 0xA620; 0xA8D0; 0xA900;
   0xA9D0; 0xA9F0; 0xAA50; 0xABF0; 0xFF10; 0x104A0; 0x10D30; 0x11066;
   0x110F0; 0x11136; 0x111D0; 0x112F0; 0x11450; 0x114D0; 0x11650; 0x116C0;
   0x11730; 0x118E0; 0x11950; 0x11C50; 0x11D50; 0x11DA0; 0x16A60; 0x16AC0;
   0x16B50; 0x1D7CE; 0x1D7D8; 0x1D7E2; 0x1D7EC; 0x1D7F6; 0x1E140; 0x1E2F0;
   0x1E950; 0x1FBF0].

Definition is_space (c : Z) : bool := in_ranges WHITESPACE c.
Definition is_digit (c : Z) : bool := in_range 48 57 c.

(** The value of a decimal digit of any script. *)
Definition decimal_value (c : Z) : option Z :=
  zero ← find (λ zero, in_range zero (zero + 9) c) DECIMAL_ZERO; Some (c - zero).

Fixpoint lstrip (s : pystr) : pystr :=
  match s with
  | c :: s' => if is_space c then lstrip s' else s
  | [] => []
  end.
Definition strip (s : pystr) : pystr := reverse (lstrip (reverse (lstrip s))).
Definition lower (s : pystr) : pystr :=
  (λ c, if in_range 65 90 c then c + 32 else c) <$> s.
Definition isdigit (s : pystr) : bool := bool_decide (s ≠ []) && forallb (in_ranges DIGIT) s.
Definition digits_value (s : pystr) : Z := foldl (λ acc c, 10 * acc + (c - 48)) 0 s.

(** *** [int(s)] *)

(** Before it is read, white space beyond ASCII becomes a space and a
    decimal digit beyond ASCII the ASCII digit; the text is cut with a
    [?] at another character beyond ASCII. *)
Fixpoint to_ascii (s : pystr) : pystr :=
  match s with
  | [] => []
  | c :: s' =>
    if c <? 127 then c :: to_ascii s'
    else if is_space c then 32 :: to_ascii s'
    else match decimal_value c with
         | Some d => 48 + d :: to_ascii s'
         | None => [63]
         end
  end.

Fixpoint skip_spaces (s : pystr) : pystr :=
  match s with
  | c :: s' => if in_range 9 13 c || (c =? 32) then skip_spaces s' else s
  | [] => []
  end.

(** The digits at the head of [s] without the underscores between them,
    and what follows; [None] for two underscores in a row or one at the
    end.  [prev] is the character before [s]. *)
Fixpoint int_digits (prev : Z) (s : pystr) : option (pystr * pystr) :=
  match s with
  | c :: s' =>
    if is_digit c then '(ds, rest) ← int_digits c s'; Some (c :: ds, rest)
    else if c =? 95 then if prev =? 95 then None else int_digits c s'
    else if prev =? 95 then None else Some ([], s)
  | [] => if prev =? 95 then None else Some ([], [])
  end.

Definition MAX_STR_DIGITS : nat := 4300.

Inductive int_literal :=
| IntValue (n : Z)
| IntInvalid                       (* invalid literal for int() *)
| IntTooLong (digits : nat).       (* more digits than the limit *)

(** The number of digits is checked once they are read, before what
    follows them is. *)
Definition read_int (s : pystr) : int_literal :=
  let t := skip_spaces (to_ascii s) in
  let '(negative, t) :=
    match t with
    | c :: r => if c =? 45 then (true, r) else if c =? 43 then (false, r) else (false, t)
    | [] => (false, t)
    end in
  if starts_with [95] t then IntInvalid
  else match int_digits 0 t with
       | None => IntInvalid
       | Some (ds, rest) =>
         if (MAX_STR_DIGITS <? length ds)%nat then IntTooLong (length ds)
         else match ds, skip_spaces rest with
              | _ :: _, [] =>
                IntValue (if negative : bool then - digits_value ds else digits_value ds)
              | _, _ => IntInvalid
              end
       end.

Definition int_of (s : pystr) : outcome Z :=
  match read_int s with
  | IntValue n => Ok n
  | _ => Raise (ValueError s)
  end.

(** *** Reading JSON *)

(** Why a text is rejected: [JSONDecodeError(msg, doc, pos)], with the
    position given by the number of characters left from it on, or the
    [ValueError] of an integer of too many digits. *)
Inductive failure :=
| Syntax (msg : string) (remaining : nat)
| Digits (lexeme : pystr).

Inductive scan (A : Type) :=
| Got (a : A)
| Stop (f : failure).
Arguments Got {A} a.
Arguments Stop {A} f.

#[local] Instance scan_ret : MRet scan := @Got.
#[local] Instance scan_bind : MBind scan := λ A B f m,
  match m with Got a => f a | Stop e => Stop e end.

Definition is_json_space (c : Z) : bool :=
  (c =? 32) || (c =? 9) || (c =? 10) || (c =? 13).

Fixpoint skip_ws (s : pystr) : pystr :=
  match s with
  | c :: s' => if is_json_space c then skip_ws s' else s
  | [] => []
  end.

Fixpoint span (p : Z → bool) (s : pystr) : pystr * pystr :=
  match s with
  | c :: s' => if p c then let '(a, b) := span p s' in (c :: a, b) else ([], s)
  | [] => ([], [])
  end.

Definition hex_value (c : Z) : option Z :=
  if in_range 48 57 c then Some (c - 48)
  else if in_range 97 102 c then Some (c - 87)
  else if in_range 65 70 c then Some (c - 55)
  else None.

(** The four hexadecimal digits of a [\u] escape; the scanner wants a
    character after them (the string has to be closed anyway). *)
Definition hex4 (s : pystr) : option (Z * pystr) :=
  match s with
  | a :: b :: c :: d :: ((_ :: _) as rest) =>
    a ← hex_value a; b ← hex_value b; c ← hex_value c; d ← hex_value d;
    Some (((a * 16 + b) * 16 + c) * 16 + d, rest)
  | _ => None
  end.

(** [\uDC00]..[\uDFFF] at the head of [s]. *)
Definition low_surrogate (s : pystr) : option (Z * pystr) :=
  match s with
  | b :: u :: rest =>
    if (b =? 92) && (u =? 117)
    then '(lo, rest') ← hex4 rest;
         if in_range 0xDC00 0xDFFF lo then Some (lo, rest') else None
    else None
  | _ => None
  end.

Definition simple_escape (c : Z) : option Z :=
  if (c =? 34) || (c =? 92) || (c =? 47) then Some c
  else if c =? 98 then Some 8
  else if c =? 102 then Some 12
  else if c =? 110 then Some 10
  else if c =? 114 then Some 13
  else if c =? 116 then Some 9
  else None.

Definition prepend (c : Z) (r : scan (pystr * pystr)) : scan (pystr * pystr) :=
  '(t, rest) ← r; Got (c :: t, rest).

(** The characters of a string up to its closing quote, and what follows.
    [start] locates the opening quote.  A high surrogate that no low
    surrogate follows stays as it is. *)
Fixpoint scan_string (start fuel : nat) (s : pystr) : scan (pystr * pystr) :=
  match fuel, s with
  | S fuel, c :: rest =>
    if c =? 34 then Got ([], rest)
    else if c =? 92 then
      match rest with
      | e :: rest1 =>
        if e =? 117 then
          match hex4 rest1 with
          | Some (cp, rest2) =>
            match (if in_range 0xD800 0xDBFF cp then low_surrogate rest2 else None) with
            | Some (lo, rest3) =>
              prepend (0x10000 + Z.shiftl (cp - 0xD800) 10 + (lo - 0xDC00))
                      (scan_string start fuel rest3)
            | None => prepend cp (scan_string start fuel rest2)
            end
          | None => Stop (Syntax "Invalid \uXXXX escape" (length rest))
          end
        else match simple_escape e with
             | Some c' => prepend c' (scan_string start fuel rest1)
             | None => Stop (Syntax "Invalid \escape" (length s))
             end
      | [] => Stop (Syntax "Unterminated string starting at" start)
      end
    else if c <? 32 then Stop (Syntax "Invalid control character at" (length s))
    else prepend c (scan_string start fuel rest)
  | _, _ => Stop (Syntax "Unterminated string starting at" start)
  end.

(** A number: an optional minus sign, [0] or digits not starting with
    [0], then optionally a point with digits and an exponent.  With a
    fraction or an exponent it is a float, otherwise an int, read by
    [int] with its limit. *)
Definition scan_number (s : pystr) : scan (pyval * pystr) :=
  let '(negative, s1) :=
    match s with
    | c :: r => if c =? 45 then (true, r) else (false, s)
    | [] => (false, s)
    end in
  let '(ds, s2) := span is_digit s1 in
  match ds with
  | [] => Stop (Syntax "Expecting value" (length s))
  | d :: more =>
    let '(ip, s2) := if d =? 48 then ([d], more ++ s2) else (ds, s2) in
    let '(frac, s3) :=
      match s2 with
      | c :: r =>
        if c =? 46
        then let '(fs, r') := span is_digit r in
             match fs with [] => ([], s2) | _ => (c :: fs, r') end
        else ([], s2)
      | [] => ([], s2)
      end in
    let '(ex, s4) :=
      match s3 with
      | c :: r =>
        if (c =? 101) || (c =? 69)
        then let '(sg, r1) :=
               match r with
               | g :: r1 => if (g =? 43) || (g =? 45) then ([g], r1) else ([], r)
               | [] => ([], r)
               end in
             let '(es, r2) := span is_digit r1 in
             match es with [] => ([], s3) | _ => (c :: sg ++ es, r2) end
        else ([], s3)
      | [] => ([], s3)
      end in
    let sign := if negative : bool then [45] else [] in
    match frac, ex with
    | [], [] =>
      if (MAX_STR_DIGITS <? length ip)%nat then Stop (Digits (sign ++ ip))
      else Got (PInt (if negative : bool then - digits_value ip else digits_value ip), s4)
    | _, _ => Got (PFloat (sign ++ ip ++ frac ++ ex), s4)
    end
  end.

(** [d[k] = v]: a repeated key keeps its place and takes the new value. *)
Fixpoint dict_set (k : pystr) (v : pyval) (d : list (pystr * pyval))
  : list (pystr * pyval) :=
  match d with
  | [] => [(k, v)]
  | (k', v') :: d' =>
    if bool_decide (k' = k) then (k, v) :: d' else (k', v') :: dict_set k v d'
  end.

Definition keyword (w : string) (v : pyval) (s : pystr) : option (pyval * pystr) :=
  if starts_with (lit w) s then Some (v, drop (length (lit w)) s) else None.

Definition PROPERTY_NAME : string := "Expecting property name enclosed in double quotes".

(** A value at the head of [s] and what follows it.  The fuel bounds the
    nesting and the number of items; [decode] gives more than a text can
    use. *)
Fixpoint parse_value (fuel : nat) (s : pystr) : scan (pyval * pystr) :=
  match fuel, s with
  | S fuel, c :: rest =>
    if c =? 34 then
      '(t, rest') ← scan_string (length s) (length rest) rest; Got (PStr t, rest')
    else if c =? 123 then
      match skip_ws rest with
      | c' :: rest' =>
        if c' =? 125 then Got (PDict [], rest') else parse_members fuel [] (c' :: rest')
      | [] => Stop (Syntax PROPERTY_NAME 0)
      end
    else if c =? 91 then
      match skip_ws rest with
      | c' :: rest' =>
        if c' =? 93 then Got (PList [], rest') else parse_elements fuel [] (c' :: rest')
      | [] => Stop (Syntax "Expecting value" 0)
      end
    else
      match keyword "null" PNone s ∪ keyword "true" (PBool true) s
            ∪ keyword "false" (PBool false) s
            ∪ keyword "NaN" (PFloat (lit "NaN")) s
            ∪ keyword "Infinity" (PFloat (lit "Infinity")) s
            ∪ keyword "-Infinity" (PFloat (lit "-Infinity")) s with
      | Some found => Got found
      | None => scan_number s
      end
  | _, _ => Stop (Syntax "Expecting value" (length s))
  end
with parse_elements (fuel : nat) (acc : list pyval) (s : pystr)
  : scan (pyval * pystr) :=
  match fuel with
  | S fuel =>
    '(v, rest) ← parse_value fuel s;
    match skip_ws rest with
    | c :: rest' =>
      if c =? 93 then Got (PList (acc ++ [v]), rest')
      else if c =? 44 then parse_elements fuel (acc ++ [v]) (skip_ws rest')
      else Stop (Syntax "Expecting ',' delimiter" (S (length rest')))
    | [] => Stop (Syntax "Expecting ',' delimiter" 0)
    end
  | O => Stop (Syntax "Expecting value" (length s))
  end
with parse_members (fuel : nat) (acc : list (pystr * pyval)) (s : pystr)
  : scan (pyval * pystr) :=
  match fuel, s with
  | S fuel, q :: rest =>
    if q =? 34 then
      '(k, rest1) ← scan_string (length s) (length rest) rest;
      match skip_ws rest1 with
      | c :: rest2 =>
        if c =? 58 then
          '(v, rest3) ← parse_value fuel (skip_ws rest2);
          match skip_ws rest3 with
          | c' :: rest4 =>
            if c' =? 125 then Got (PDict (dict_set k v acc), rest4)
            else if c' =? 44 then parse_members fuel (dict_set k v acc) (skip_ws rest4)
            else Stop (Syntax "Expecting ',' delimiter" (S (length rest4)))
          | [] => Stop (Syntax "Expecting ',' delimiter" 0)
          end
        else Stop (Syntax "Expecting ':' delimiter" (S (length rest2)))
      | [] => Stop (Syntax "Expecting ':' delimiter" 0)
      end
    else Stop (Syntax PROPERTY_NAME (length s))
  | _, _ => Stop (Syntax PROPERTY_NAME (length s))
  end.

(** One value with white space around it, and nothing else. *)
Definition decode (doc : pystr) : scan pyval :=
  if starts_with [0xFEFF] doc
  then Stop (Syntax "Unexpected UTF-8 BOM (decode using utf-8-sig)" (length doc))
  else
    '(v, rest) ← parse_value (2 * length doc + 2) (skip_ws doc);
    match skip_ws rest with
    | [] => Got v
    | rest' => Stop (Syntax "Extra data" (length rest'))
    end.

Definition loads (doc : pystr) : outcome pyval :=
  match decode doc with
  | Got v => Ok v
  | Stop (Syntax _ _) => Raise (JSONDecodeError doc)
  | Stop (Digits lexeme) => Raise (ValueError lexeme)
  end.

(** *** [str] and [repr] *)

Definition hex_digit (n : Z) : Z := if n <? 10 then 48 + n else 87 + n.

Definition escape_char (quote c : Z) : pystr :=
  if (c =? 92) || (c =? quote) then [92; c]
  else if c =? 9 then lit "\t"
  else if c =? 10 then lit "\n"
  else if c =? 13 then lit "\r"
  else if (c <? 32) || (c =? 127) then lit "\x" ++ [hex_digit (c / 16); hex_digit (c mod 16)]
  else [c].

(** [repr(s)]: double quotes only when [s] has a single quote and no
    double quote. *)
Definition repr_str (s : pystr) : pystr :=
  let quote := if bool_decide (39 ∈ s) && negb (bool_decide (34 ∈ s)) then 34 else 39 in
  quote :: concat (escape_char quote <$> s) ++ [quote].

Fixpoint join (sep : pystr) (parts : list pystr) : pystr :=
  match parts with
  | [] => []
  | [x] => x
  | x :: rest => x ++ sep ++ join sep rest
  end.

Fixpoint repr (v : pyval) : pystr :=
  match v with
  | PNone => lit "None"
  | PBool b => if b then lit "True" else lit "False"
  | PInt n => str_of_int n
  | PFloat lexeme => lexeme
  | PStr s => repr_str s
  | PList items => lit "[" ++ join (lit ", ") (map repr items) ++ lit "]"
  | PDict entries =>
    lit "{" ++ join (lit ", ") (map (λ kv, repr_str kv.1 ++ lit ": " ++ repr kv.2) entries)
    ++ lit "}"
  end.

Definition to_str (v : pyval) : pystr :=
  match v with PStr s => s | _ => repr v end.

Definition type_name (v : pyval) : pystr :=
  match v with
  | PNone => lit "NoneType"
  | PBool _ => lit "bool"
  | PInt _ => lit "int"
  | PFloat _ => lit "float"
  | PStr _ => lit "str"
  | PList _ => lit "list"
  | PDict _ => lit "dict"
  end.

Definition not_subscriptable (v : pyval) : pystr :=
  lit "'" ++ type_name v ++ lit "' object is not subscriptable".

(** *** The text of a decoding error *)

Definition str_of_nat (n : nat) : pystr := str_of_int (Z.of_nat n).

(** Where strict UTF-8 decoding stops: the first offending byte, the one
    after the last, and the reason.  [pos] is the position of the head
    of [bs]; a sequence cut by the end of the data runs to that end. *)
Fixpoint utf8_fault (pos : nat) (bs : list Z) : option (nat * nat * string) :=
  let bad_start := Some (pos, S pos, "invalid start byte"%string) in
  let bad_continuation n := Some (pos, (pos + n)%nat, "invalid continuation byte"%string) in
  let cut := Some (pos, (pos + length bs)%nat, "unexpected end of data"%string) in
  match bs with
  | [] => None
  | b0 :: rest =>
    if b0 <? 0x80 then utf8_fault (S pos) rest
    else if b0 <? 0xC2 then bad_start
    else if b0 <? 0xE0 then
      match rest with
      | [] => cut
      | b1 :: rest1 =>
        if is_continuation b1 then utf8_fault (pos + 2) rest1 else bad_continuation 1%nat
      end
    else if b0 <? 0xF0 then
      match rest with
      | [] => cut
      | b1 :: rest1 =>
        if negb (is_continuation b1) || (if b1 <? 0xA0 then b0 =? 0xE0 else b0 =? 0xED)
        then bad_continuation 1%nat
        else match rest1 with
             | [] => cut
             | b2 :: rest2 =>
               if is_continuation b2 then utf8_fault (pos + 3) rest2
               else bad_continuation 2%nat
             end
      end
    else if b0 <? 0xF5 then
      match rest with
      | [] => cut
      | b1 :: rest1 =>
        if negb (is_continuation b1) || (if b1 <? 0x90 then b0 =? 0xF0 else b0 =? 0xF4)
        then bad_continuation 1%nat
        else match rest1 with
             | [] => cut
             | b2 :: rest2 =>
               if negb (is_continuation b2) then bad_continuation 2%nat
               else match rest2 with
                    | [] => cut
                    | b3 :: rest3 =>
                      if is_continuation b3 then utf8_fault (pos + 4) rest3
                      else bad_continuation 3%nat
                    end
             end
      end
    else bad_start
  end.

(** [str(e)] for the [UnicodeDecodeError] of [data.decode('utf-8')]. *)
Definition decode_error_text (data : list Z) : pystr :=
  match utf8_fault 0 data with
  | Some (first, after, reason) =>
    lit "'utf-8' codec can't decode "
    ++ (if (after =? S first)%nat
        then let b := default 0 (data !! first) in
             lit "byte 0x" ++ [hex_digit (b / 16); hex_digit (b mod 16)]
             ++ lit " in position " ++ str_of_nat first
        else lit "bytes in position " ++ str_of_nat first ++ lit "-" ++ str_of_nat (after - 1))
    ++ lit ": " ++ lit reason
  | None => []
  end.

(** [str(e)] for [JSONDecodeError(msg, doc, pos)]: the message, then the
    line and the column of [pos], counted from 1, and [pos]. *)
Definition json_error_text (doc : pystr) (msg : string) (remaining : nat) : pystr :=
  let pos := (length doc - remaining)%nat in
  let before := take pos doc in
  let lineno := S (length (filter (λ c, c = 10) before)) in
  let colno := S (foldl (λ n c, if c =? 10 then O else S n) O before) in
  lit msg ++ lit ": line " ++ str_of_nat lineno ++ lit " column " ++ str_of_nat colno
  ++ lit " (char " ++ str_of_nat pos ++ lit ")".

(** [str(e)] *)
Definition message_of (e : exn) : pystr :=
  match e with
  | HTTPError code _ => lit "HTTP Error " ++ str_of_int code
  | URLError reason => lit "<urlopen error " ++ reason ++ lit ">"
  | KeyError key => repr key
  | IndexError (PStr _) => lit "string index out of range"
  | IndexError _ => lit "list index out of range"
  | TypeError OpIn v => lit "argument of type '" ++ type_name v ++ lit "' is not iterable"
  | TypeError (OpGetItem (Key _)) (PList _) =>
    lit "list indices must be integers or slices, not str"
  | TypeError (OpGetItem (Key _)) (PStr _) => lit "string indices must be integers, not 'str'"
  | TypeError (OpGetItem _) v => not_subscriptable v
  | TypeError OpLen v => lit "object of type '" ++ type_name v ++ lit "' has no len()"
  | TypeError OpSlice (PDict _) => lit "unhashable type: 'slice'"
  | TypeError OpSlice v => not_subscriptable v
  | TypeError OpAdd (PList _) =>
    lit "can only concatenate list (not " ++ [34] ++ lit "str" ++ [34] ++ lit ") to list"
  | TypeError OpAdd v =>
    lit "unsupported operand type(s) for +: '" ++ type_name v ++ lit "' and 'str'"
  | ValueError arg =>
    match read_int arg with
    | IntTooLong digits =>
      lit "Exceeds the limit (4300 digits) for integer string conversion: value has "
      ++ str_of_nat digits ++ lit " digits; use sys.set_int_max_str_digits() to increase the limit"
    | _ => lit "invalid literal for int() with base 10: " ++ take 200 (repr_str arg)
    end
  | UnicodeDecodeError data => decode_error_text (byte_val <$> data)
  | JSONDecodeError doc =>
    match decode doc with
    | Stop (Syntax msg remaining) => json_error_text doc msg remaining
    | _ => []
    end
  | EOFError => lit "EOF when reading a line"
  | OtherException _ msg => msg
  | KeyboardInterrupt => []
  end.

#[export] Instance runtime : Runtime := {|
  os_name := lit "posix";
  json_loads := loads;
  str_of := to_str;
  str_of_PStr := λ s, eq_refl;
  exc_str := message_of;
  str_strip := strip;
  str_lower := lower;
  str_isdigit := isdigit;
  int_of_str := int_of;
|}.
End Replay.

(** ** Vocabulary of the statements *)

(** The object once the text of a turn has been appended (line 29). *)
Definition with_user (message : pystr) (self : TerminalChatbot) : TerminalChatbot :=
  append_history {| role := user; content := PStr message |} self.

Definition with_assistant (reply : pyval) (self : TerminalChatbot) : TerminalChatbot :=
  append_history {| role := assistant; content := reply |} self.

(** [first['message']['content']] for the first choice of a response. *)
Definition choice_content (first : pyval) : outcome pyval :=
  msg ← py_getitem first (Key (lit "message"));
  py_getitem msg (Key (lit "content")).

(** The configuration fields other than the model identifier. *)
Definition same_settings (a b : TerminalChatbot) : Prop :=
  api_key a = api_key b ∧ api_url a = api_url b ∧ max_tokens a = max_tokens b.

(** The exceptions the operations on parsed JSON raise. *)
Definition lookup_error (e : exn) : Prop :=
  match e with
  | KeyError _ | IndexError _ | TypeError _ _ => True
  | _ => False
  end.

Definition is_text (m : Message) : Prop := ∃ s, content m = PStr s.

(** The success body of the specification, its text and its value. *)
Definition hi_body : list byte := json_lit "{'choices':[{'message':{'content':'hi'}}]}".
Definition hi_text : pystr := byte_val <$> hi_body.
Definition hi_value : pyval :=
  PDict [(lit "choices",
          PList [PDict [(lit "message", PDict [(lit "content", PStr (lit "hi"))])]])].

(** An object to run the examples on. *)
Definition fresh : TerminalChatbot := init (lit "sk-or-v1-0123456789abcdef0123456789abcdef") None.

Section Exchanges.
Context `{Runtime}.

(** The network answers the call with a body that parses to an object
    whose [choices] is a list with a first element. *)
Definition has_a_choice (net : Request → outcome (list byte)) (message : pystr)
    (self : TerminalChatbot) (first : pyval) : Prop :=
  ∃ body text d rest,
    net (request_for (with_user message self)) = Ok body
    ∧ bytes_decode body = Ok text
    ∧ json_loads text = Ok (PDict d)
    ∧ dict_get (lit "choices") d = Some (PList (first :: rest)).

(** ... and that first choice carries [message.content], the reply. *)
Definition answers (net : Request → outcome (list byte)) (message : pystr)
    (self : TerminalChatbot) (reply : pyval) : Prop :=
  ∃ first, has_a_choice net message self first ∧ choice_content first = Ok reply.

(** A sequence of calls each of which is answered, with the replies. *)
Inductive completed :
  TerminalChatbot → list (pystr * (Request → outcome (list byte))) → list pyval → Prop :=
| completed_nil self : completed self [] []
| completed_cons self message net reply calls replies :
    answers net message self reply →
    completed (with_assistant reply (with_user message self)) calls replies →
    completed self ((message, net) :: calls) (reply :: replies).

(** [error.message] of an error body: the body parses to an object whose
    [error] is an object with a [message]. *)
Definition nested_error_message (error_msg : pystr) : option pyval :=
  match json_loads error_msg with
  | Ok (PDict d) =>
    match dict_get (lit "error") d with
    | Some (PDict ed) => dict_get (lit "message") ed
    | _ => None
    end
  | _ => None
  end.
End Exchanges.

(** The transcript of a dialogue: each text followed by its reply. *)
Fixpoint dialogue (messages : list pystr) (replies : list pyval) : list Message :=
  match messages, replies with
  | m :: ms, r :: rs =>
    {| role := user; content := PStr m |} :: {| role := assistant; content := r |}
    :: dialogue ms rs
  | _, _ => []
  end.

(** Error bodies: a text in ISO-8859-1 ("Accès refusé", as a gateway may
    send it) and the JSON error object of the service. *)
Definition latin1_body : list byte :=
  bytes_lit "Acc" ++ [xe8] ++ bytes_lit "s refus" ++ [xe9].
Definition boom_body : list byte := json_lit "{'error':{'message':'boom'}}".

(** [json.loads] raises its own errors ([JSONDecodeError], or
    [RecursionError] on a deeply nested text), never an [HTTPError] nor a
    [KeyboardInterrupt]. *)
Definition caught_by_generic_handler (e : exn) : Prop :=
  is_Exception e = true ∧ ∀ code fp, e ≠ HTTPError code fp.

(** What the history shows of a text: all of it up to 100 characters, the
    first 100 followed by an ellipsis beyond. *)
Definition shown (s : pystr) : pystr :=
  if decide (100 < length s)%nat then take 100 s ++ lit "..." else s.

(** The history line of the [k]-th message ([k] from 0) when its content
    is the text [s]. *)
Definition text_line (clock : nat → pystr) (k : nat) (r : Role) (s : pystr) : pystr :=
  format_2d (Z.of_nat (S k)) ++ lit ". [" ++ clock k ++ lit "] "
  ++ match r with user => lit "You" | assistant => lit "AI" end ++ lit ": " ++ shown s.

(** A transcript with a long and a short message. *)
Definition long_text : pystr := replicate 101 97.
Definition two_messages : TerminalChatbot :=
  with_assistant (PStr long_text) (with_user (replicate 100 98) fresh).

(** Simulated networks: each answers every request the same way. *)
Definition replies_with (body : list byte) : Request → outcome (list byte) := λ _, Ok body.
Definition fails_with (code : Z) (body : list byte) : Request → outcome (list byte) :=
  λ _, Raise (HTTPError code body).

(** A turn of the loop in which the user types [line]; the network would
    answer with the success body and the clock reads 09:30. *)
Definition says (line : string) : Turn :=
  {| typed := Ok (lit line); selection := Raise EOFError;
     urlopen := replies_with hi_body; clock := λ _, lit "09:30" |}.

Definition no_choices_body : list byte := json_lit "{'choices':[]}".
Definition empty_choice_body : list byte := json_lit "{'choices':[{}]}".
Definition empty_message_body : list byte := json_lit "{'choices':[{'message':{}}]}".

Definition null_content_body : list byte :=
  json_lit "{'choices':[{'message':{'content':null}}]}".

(** The body of the [try] of [make_api_request] (lines 29-63), on the
    object that already holds the user message. *)
Definition try_body `{Runtime} (net : Request → outcome (list byte))
    (self : TerminalChatbot) : outcome (pyval * TerminalChatbot) :=
  body ← net (request_for self);
  text ← bytes_decode body;
  result ← json_loads text;
  extract_response result self.

(** A network on which the call fails before any response arrives. *)
Definition unreachable : Request → outcome (list byte) :=
  λ _, Raise (URLError (lit "[Errno -2] Name or service not known")).

(** The number of user messages of a transcript. *)
Fixpoint user_turns (h : list Message) : nat :=
  match h with
  | [] => 0
  | m :: h' => match role m with user => 1 | assistant => 0 end + user_turns h'
  end.

(** Every assistant message comes right after a user message. *)
Definition replies_follow_texts (h : list Message) : Prop :=
  ∀ i m, h !! i = Some m → role m = assistant →
    ∃ j u, i = S j ∧ h !! j = Some u ∧ role u = user.

(** The [messages] of the request body. *)
Definition messages_sent (r : Request) : list pyval :=
  match data r with
  | PDict d => match dict_get (lit "messages") d with Some (PList l) => l | _ => [] end
  | _ => []
  end.

(** The text of a message whose content is text. *)
Definition text_of (m : Message) : pystr :=
  match content m with PStr s => s | _ => [] end.

(** The words the loop takes as commands. *)
Definition commands : list pystr :=
  [lit "quit"; lit "exit"; lit "bye"; lit "clear"; lit "help"; lit "history";
   lit "reset"; lit "model"; lit "models"].


(** A transcript whose second message has the content [null]. *)
Definition null_reply : TerminalChatbot := with_assistant PNone (with_user (lit "hello") fresh).

(** What the loop prints when it is interrupted. *)
Definition INTERRUPTED : pystr := nl ++ nl ++ lit "👋 Goodbye! (Interrupted by user)".

(** Turns: standard input is closed; the user interrupts a call. *)
Definition end_of_input : Turn :=
  {| typed := Raise EOFError; selection := Raise EOFError;
     urlopen := replies_with hi_body; clock := λ _, lit "09:30" |}.
Definition interrupted_call : Turn :=
  {| typed := Ok (lit "hello"); selection := Raise EOFError;
     urlopen := λ _, Raise KeyboardInterrupt; clock := λ _, lit "09:30" |}.

Definition null_body : list byte := bytes_lit "null".
Definition null_choices_body : list byte := json_lit "{'choices':null}".


(** ** Basic facts *)

Lemma bind_Ok {A B} (a : A) (f : A → outcome B) : (Ok a ≫= f) = f a.
Proof. reflexivity. Qed.

Lemma bind_Raise {A B} (e : exn) (f : A → outcome B) : (Raise e ≫= f) = Raise e.
Proof. reflexivity. Qed.

Lemma bind_Raise_inv {A B} (m : outcome A) (f : A → outcome B) e :
  (m ≫= f) = Raise e → m = Raise e ∨ ∃ a, m = Ok a ∧ f a = Raise e.
Proof. destruct m as [a|e']; cbn; intros Hm; [right; eauto | left; congruence]. Qed.

Lemma lookup_error_is_Exception e : lookup_error e → is_Exception e = true.
Proof. by destruct e. Qed.

Lemma py_contains_raises k v e : py_contains k v = Raise e → lookup_error e.
Proof. destruct v; cbn; intros Hv; by simplify_eq. Qed.

Lemma py_getitem_raises v sub e : py_getitem v sub = Raise e → lookup_error e.
Proof.
  destruct v, sub; cbn; intros Hv; simplify_eq; try done.
  - destruct (seq_index s i); by simplify_eq.
  - destruct (seq_index items i); by simplify_eq.
  - destruct (dict_get k entries); by simplify_eq.
Qed.

Lemma py_len_raises v e : py_len v = Raise e → lookup_error e.
Proof. destruct v; cbn; intros Hv; by simplify_eq. Qed.

Lemma choice_content_raises first e : choice_content first = Raise e → lookup_error e.
Proof.
  unfold choice_content. intros [Hm | (msg & _ & Hm)]%bind_Raise_inv;
    by eapply py_getitem_raises.
Qed.

Lemma dict_has_key k d :
  py_contains k (PDict d) = Ok (bool_decide (is_Some (dict_get k d))).
Proof. reflexivity. Qed.

Lemma seq_index_first {A} (x : A) l : seq_index (x :: l) 0 = Some x.
Proof. reflexivity. Qed.

(** The prefix of the generic error text starts with the cross mark, the
    apology with a letter. *)
Lemma error_text_not_apology detail : ERROR_PREFIX ++ detail ≠ APOLOGY.
Proof. vm_compute. discriminate. Qed.

Section Facts.
Context `{Runtime}.

(** *** How [extract_response] goes on an object *)

Lemma extract_without_choices d self :
  dict_get (lit "choices") d = None →
  extract_response (PDict d) self = Ok (PStr APOLOGY, self).
Proof. intros Hd. unfold extract_response. rewrite dict_has_key, Hd. reflexivity. Qed.

Lemma extract_empty_choices d self :
  dict_get (lit "choices") d = Some (PList []) →
  extract_response (PDict d) self = Ok (PStr APOLOGY, self).
Proof.
  intros Hd. unfold extract_response. rewrite dict_has_key, Hd. cbn. by rewrite Hd.
Qed.

Lemma extract_first_choice d first rest self :
  dict_get (lit "choices") d = Some (PList (first :: rest)) →
  extract_response (PDict d) self
  = (c ← choice_content first; mret (c, with_assistant c self)).
Proof.
  intros Hd. unfold extract_response, choice_content. rewrite dict_has_key, Hd.
  cbn. rewrite Hd. cbn.
  replace (0 <? Z.of_nat (S (length rest))) with true by (symmetry; apply Z.ltb_lt; lia).
  change (Z.to_nat 0) with O. cbn. destruct (py_getitem first _) as [msg|]; cbn; [|done].
  by destruct (py_getitem msg _).
Qed.

Lemma extract_response_raises parsed self e :
  extract_response parsed self = Raise e → lookup_error e.
Proof.
  unfold extract_response.
  intros [Hc | (has & _ & Hrest)]%bind_Raise_inv; [by eapply py_contains_raises|].
  apply bind_Raise_inv in Hrest as [Hne | (nonempty & _ & Hrest)].
  - destruct has; [|done].
    apply bind_Raise_inv in Hne as [Hg | (ch & _ & Hne)]; [by eapply py_getitem_raises|].
    apply bind_Raise_inv in Hne as [Hl | (n & _ & Hne)]; [by eapply py_len_raises|done].
  - destruct nonempty; [|done].
    repeat (apply bind_Raise_inv in Hrest as [Hg | (? & _ & Hrest)];
            [by eapply py_getitem_raises|]).
    done.
Qed.

(** *** How [make_api_request] goes once the network has answered *)

Lemma answered_request net message self body text parsed :
  net (request_for (with_user message self)) = Ok body →
  bytes_decode body = Ok text →
  json_loads text = Ok parsed →
  make_api_request net message self
  = match extract_response parsed (with_user message self) with
    | Ok (response, self') => (Ok response, self')
    | Raise e => (Ok (PStr (ERROR_PREFIX ++ exc_str e)), with_user message self)
    end.
Proof.
  intros Hnet Hbody Hparse. unfold make_api_request. fold (with_user message self).
  rewrite Hnet. cbn. rewrite Hbody. cbn. rewrite Hparse. cbn.
  destruct (extract_response _ _) as [[response self']|e] eqn:Hex; [done|].
  apply extract_response_raises in Hex. by destruct e.
Qed.

Lemma failed_request net message self code fp :
  net (request_for (with_user message self)) = Raise (HTTPError code fp) →
  make_api_request net message self = (on_http_error code fp, with_user message self).
Proof.
  intros Hnet. unfold make_api_request. fold (with_user message self). by rewrite Hnet.
Qed.
End Facts.

(** ** The completion exchange *)

Lemma hi_body_decodes : bytes_decode hi_body = Ok hi_text.
Proof. reflexivity. Qed.

Lemma choice_without_message cd :
  dict_get (lit "message") cd = None →
  choice_content (PDict cd) = Raise (KeyError (PStr (lit "message"))).
Proof. intros Hm. unfold choice_content. cbn. by rewrite Hm. Qed.

Lemma message_without_content cd md :
  dict_get (lit "message") cd = Some (PDict md) →
  dict_get (lit "content") md = None →
  choice_content (PDict cd) = Raise (KeyError (PStr (lit "content"))).
Proof. intros Hm Hc. unfold choice_content. cbn. rewrite Hm. cbn. by rewrite Hc. Qed.

Section Completion.
Context `{Runtime}.

Lemma answered_call net message self reply :
  answers net message self reply →
  make_api_request net message self
  = (Ok reply, with_assistant reply (with_user message self)).
Proof.
  intros (first & (body & text & d & rest & Hnet & Hbody & Hparse & Hd) & Hc).
  rewrite (answered_request _ _ _ _ _ _ Hnet Hbody Hparse).
  by rewrite (extract_first_choice _ _ _ _ Hd), Hc.
Qed.

(** C1.  Whatever the object holds, when the network answers
    [submit("hello")] with the body
    [{"choices":[{"message":{"content":"hi"}}]}] (which [json.loads] reads
    as the corresponding object), the call returns ["hi"] and the
    transcript afterwards is the one before followed by the user message
    ["hello"] and the assistant message ["hi"], in that order. *)
Theorem submit_hello_returns_hi net self :
  net (request_for (with_user (lit "hello") self)) = Ok hi_body →
  json_loads hi_text = Ok hi_value →
  ∃ self',
    make_api_request net (lit "hello") self = (Ok (PStr (lit "hi")), self')
    ∧ conversation_history self'
      = conversation_history self
        ++ [{| role := user; content := PStr (lit "hello") |};
            {| role := assistant; content := PStr (lit "hi") |}]
    ∧ same_settings self' self ∧ model self' = model self.
Proof.
  intros Hnet Hparse. eexists. split.
  - apply answered_call. exists (PDict [(lit "message", PDict [(lit "content", PStr (lit "hi"))])]).
    split; [|reflexivity].
    exists hi_body, hi_text,
      [(lit "choices",
        PList [PDict [(lit "message", PDict [(lit "content", PStr (lit "hi"))])]])], [].
    by repeat split.
  - cbn. by rewrite <- app_assoc.
Qed.

(** C4.  When the body of the response parses to an object that has no
    [choices] key, or whose [choices] is the empty array, the call returns
    the fixed apology and the transcript has gained the user message of
    the turn and nothing else. *)
Theorem no_choice_apology net message self body text d :
  net (request_for (with_user message self)) = Ok body →
  bytes_decode body = Ok text →
  json_loads text = Ok (PDict d) →
  dict_get (lit "choices") d = None ∨ dict_get (lit "choices") d = Some (PList []) →
  ∃ self',
    make_api_request net message self = (Ok (PStr APOLOGY), self')
    ∧ conversation_history self'
      = conversation_history self ++ [{| role := user; content := PStr message |}].
Proof.
  intros Hnet Hbody Hparse Hd. exists (with_user message self). split; [|done].
  rewrite (answered_request _ _ _ _ _ _ Hnet Hbody Hparse).
  destruct Hd as [Hd|Hd];
    by rewrite ?(extract_without_choices _ _ Hd), ?(extract_empty_choices _ _ Hd).
Qed.

(** C10.  When the body of the response parses to an object whose
    [choices] is a non-empty array and looking up [message] and then
    [content] in its first element fails (a [KeyError] for an absent
    field, see [choice_without_message] and [message_without_content]; a
    [TypeError] when the element or its message is not an object), the
    call does not raise: the failure [e] is caught by the generic handler
    and the call returns the generic error prefix followed by [str(e)],
    which is not the apology; the transcript has gained the user message
    and no assistant message. *)
Theorem malformed_first_choice net message self first e :
  has_a_choice net message self first →
  choice_content first = Raise e →
  ∃ self',
    make_api_request net message self = (Ok (PStr (ERROR_PREFIX ++ exc_str e)), self')
    ∧ ERROR_PREFIX ++ exc_str e ≠ APOLOGY
    ∧ conversation_history self'
      = conversation_history self ++ [{| role := user; content := PStr message |}].
Proof.
  intros (body & text & d & rest & Hnet & Hbody & Hparse & Hd) Hc.
  exists (with_user message self). split; [|split; [apply error_text_not_apology|done]].
  rewrite (answered_request _ _ _ _ _ _ Hnet Hbody Hparse).
  by rewrite (extract_first_choice _ _ _ _ Hd), Hc.
Qed.
End Completion.

(** C7.  Whatever the transcript holds, [reset_history] leaves it empty. *)
Theorem reset_empties_transcript self :
  conversation_history (reset_history self).1 = []
  ∧ length (conversation_history (reset_history self).1) = 0%nat.
Proof. by split. Qed.

(** ** Sequences of exchanges *)

Lemma dialogue_length messages replies :
  length messages = length replies →
  length (dialogue messages replies) = (2 * length messages)%nat.
Proof.
  revert replies. induction messages as [|m ms IH]; intros [|r rs] Hlen; simplify_eq/=; [done|].
  rewrite (IH rs) by done. lia.
Qed.

Lemma dialogue_lookup messages replies i m r :
  messages !! i = Some m → replies !! i = Some r →
  dialogue messages replies !! (2 * i)%nat = Some {| role := user; content := PStr m |}
  ∧ dialogue messages replies !! (2 * i + 1)%nat = Some {| role := assistant; content := r |}.
Proof.
  revert messages replies. induction i as [|i IH]; intros [|m' ms] [|r' rs] Hm Hr;
    simplify_eq/=; [done|].
  replace (i + S (i + 0))%nat with (S (2 * i)) by lia.
  replace (S (2 * i) + 1)%nat with (S (2 * i + 1)) by lia. cbn. by apply IH.
Qed.

Section Sequences.
Context `{Runtime}.

Lemma completed_lengths self calls replies :
  completed self calls replies → length calls = length replies.
Proof. induction 1; cbn; congruence. Qed.

(** Each answered call appends its text and its reply, in that order. *)
Lemma submit_all_completed self calls replies :
  completed self calls replies →
  (submit_all calls self).1 = Ok <$> replies
  ∧ conversation_history (submit_all calls self).2
    = conversation_history self ++ dialogue calls.*1 replies.
Proof.
  induction 1 as [self|self message net reply calls replies Hans _ [IHr IHh]]; cbn.
  - by rewrite app_nil_r.
  - rewrite (answered_call _ _ _ _ Hans).
    destruct (submit_all calls _) as [rs self''] eqn:Hrest. cbn in *.
    split; [by rewrite IHr|]. rewrite IHh. cbn. by rewrite <- !app_assoc.
Qed.

(** C3, amended.  Take [n] calls, starting from an empty transcript, each
    answered with a body that parses to an object whose [choices] is a
    non-empty array whose first element carries [message.content].  Every
    call returns that content, the transcript ends up with [2 * n]
    messages, and the [i]-th call contributed the user message at
    position [2 * i] and the assistant message right after it. *)
Theorem completed_exchanges_transcript self calls replies :
  conversation_history self = [] →
  completed self calls replies →
  (submit_all calls self).1 = Ok <$> replies
  ∧ length (conversation_history (submit_all calls self).2) = (2 * length calls)%nat
  ∧ ∀ i message reply,
      calls.*1 !! i = Some message → replies !! i = Some reply →
      conversation_history (submit_all calls self).2 !! (2 * i)%nat
      = Some {| role := user; content := PStr message |}
      ∧ conversation_history (submit_all calls self).2 !! (2 * i + 1)%nat
        = Some {| role := assistant; content := reply |}.
Proof.
  intros Hempty Hall. destruct (submit_all_completed _ _ _ Hall) as [Hr Hh].
  rewrite Hh, Hempty. cbn. split; [done|]. split.
  - rewrite dialogue_length; rewrite length_fmap; [done|by eapply completed_lengths].
  - intros i message reply Hm Hrep. by apply dialogue_lookup.
Qed.
End Sequences.

(** ** The handler of HTTP errors *)

Lemma latin1_body_undecodable : bytes_decode latin1_body = Raise (UnicodeDecodeError latin1_body).
Proof. reflexivity. Qed.

Section HttpErrors.
Context `{Runtime}.

(** The body is decoded first, whatever the status. *)
Lemma undecodable_error_body net message self code fp e :
  net (request_for (with_user message self)) = Raise (HTTPError code fp) →
  bytes_decode fp = Raise e →
  make_api_request net message self = (Raise e, with_user message self).
Proof.
  intros Hnet Hfp. rewrite (failed_request _ _ _ _ _ Hnet).
  unfold on_http_error. by rewrite Hfp.
Qed.

Lemma status_text net message self code fp error_msg :
  net (request_for (with_user message self)) = Raise (HTTPError code fp) →
  bytes_decode fp = Ok error_msg →
  make_api_request net message self
  = (Ok (PStr (if code =? 401 then AUTH_FAILED
               else if code =? 429 then RATE_LIMITED
               else if code =? 400 then BAD_REQUEST
               else api_error_text code error_msg)),
     with_user message self).
Proof.
  intros Hnet Hfp. rewrite (failed_request _ _ _ _ _ Hnet).
  unfold on_http_error. rewrite Hfp. cbn.
  by repeat destruct (code =? _).
Qed.

(** With a body that is text, status 401 gives the authentication text and
    the transcript gains the user message only. *)
Lemma unauthorized_text_body net message self fp error_msg :
  net (request_for (with_user message self)) = Raise (HTTPError 401 fp) →
  bytes_decode fp = Ok error_msg →
  make_api_request net message self = (Ok (PStr AUTH_FAILED), with_user message self).
Proof. intros Hnet Hfp. by rewrite (status_text _ _ _ _ _ _ Hnet Hfp). Qed.

(** C5, at the failing input.  The service (or a proxy on the way)
    answers 401 with a body in ISO-8859-1: the call does not return the
    authentication text, it raises [UnicodeDecodeError] out of the handler
    ([e.read().decode('utf-8')] on line 66 runs before the status is
    compared, outside any [try]).  The transcript has gained the user
    message. *)
Theorem unauthorized_latin1_body_raises message self :
  make_api_request (λ _, Raise (HTTPError 401 latin1_body)) message self
  = (Raise (UnicodeDecodeError latin1_body), with_user message self).
Proof. by eapply undecodable_error_body. Qed.

(** C2, at the failing input.  Whatever the status, an HTTP error whose
    body is the byte [0xFF] makes the call raise instead of returning a
    string. *)
Theorem error_body_not_utf8_propagates code message self :
  make_api_request (λ _, Raise (HTTPError code [xff])) message self
  = (Raise (UnicodeDecodeError [xff]), with_user message self).
Proof. by eapply undecodable_error_body. Qed.

(** Apart from that, every outcome of the exchange ends in a returned
    value: when the body of an HTTP error, if there is one, is UTF-8 and
    the user does not interrupt the call, [make_api_request] returns. *)
Lemma make_api_request_returns net message self :
  (∀ code fp, net (request_for (with_user message self)) = Raise (HTTPError code fp) →
              ∃ error_msg, bytes_decode fp = Ok error_msg) →
  net (request_for (with_user message self)) ≠ Raise KeyboardInterrupt →
  (∀ text e, json_loads text = Raise e → caught_by_generic_handler e) →
  ∃ v, (make_api_request net message self).1 = Ok v.
Proof.
  intros Hfp Hint Hloads.
  destruct (net (request_for (with_user message self))) as [body|e] eqn:Hnet.
  - destruct (bytes_decode body) as [text|e] eqn:Hbody.
    + destruct (json_loads text) as [parsed|e] eqn:Hparse.
      * rewrite (answered_request _ _ _ _ _ _ Hnet Hbody Hparse).
        destruct (extract_response _ _) as [[v self']|e]; eauto.
      * destruct (Hloads _ _ Hparse) as [Hexc Hnot].
        unfold make_api_request. fold (with_user message self).
        rewrite Hnet. cbn. rewrite Hbody. cbn. rewrite Hparse. cbn.
        destruct e; try (eexists; reflexivity); [by destruct (Hnot code fp)|done].
    + unfold make_api_request. fold (with_user message self).
      rewrite Hnet. cbn. rewrite Hbody. cbn.
      unfold bytes_decode in Hbody. destruct (utf8_decode _); simplify_eq. eauto.
  - destruct e; try (unfold make_api_request; fold (with_user message self);
                     rewrite Hnet; cbn; eexists; reflexivity); [|done].
    destruct (Hfp _ _ eq_refl) as [error_msg Hmsg].
    rewrite (status_text _ _ _ _ _ _ Hnet Hmsg). eauto.
Qed.

(** What lines 74-80 compute. *)
Lemma api_error_text_spec code error_msg :
  api_error_text code error_msg
  = match nested_error_message error_msg with
    | Some m => lit "❌ API Error: " ++ str_of m
    | None => lit "❌ API Error (" ++ str_of_int code ++ lit "): " ++ error_msg
    end.
Proof.
  unfold api_error_text, nested_error_message.
  destruct (json_loads error_msg) as [[| | | |s|l|d]|e]; cbn; try done.
  - by destruct (occurs_in _ _).
  - by destruct (existsb _ _).
  - destruct (dict_get (lit "error") d) as [err|] eqn:Herr; cbn; [|done].
    destruct err as [| | | |s|l|ed]; cbn; try done.
    + by destruct (occurs_in _ _).
    + by destruct (existsb _ _).
    + by destruct (dict_get (lit "message") ed).
Qed.

(** C6, amended.  For a status other than 401, 429 and 400 and a body
    that is UTF-8 text, the call returns ["❌ API Error (<code>): <body>"],
    except that when the body parses to an object whose [error] is an
    object with a [message], it returns ["❌ API Error: <message>"], which
    carries the message and not the status.  In both cases the transcript
    has gained the user message only. *)
Theorem other_status_error_text net message self code fp error_msg :
  net (request_for (with_user message self)) = Raise (HTTPError code fp) →
  bytes_decode fp = Ok error_msg →
  code ≠ 401 → code ≠ 429 → code ≠ 400 →
  make_api_request net message self
  = (Ok (PStr match nested_error_message error_msg with
              | Some m => lit "❌ API Error: " ++ str_of m
              | None => lit "❌ API Error (" ++ str_of_int code ++ lit "): " ++ error_msg
              end),
     with_user message self).
Proof.
  intros Hnet Hfp H401 H429 H400. rewrite (status_text _ _ _ _ _ _ Hnet Hfp).
  destruct (Z.eqb_spec code 401); [done|]. destruct (Z.eqb_spec code 429); [done|].
  destruct (Z.eqb_spec code 400); [done|]. by rewrite api_error_text_spec.
Qed.
End HttpErrors.

(** ** The history display *)

Lemma display_text s : display_content (PStr s) = Ok (PStr (shown s)).
Proof.
  unfold display_content, shown. cbn.
  destruct (Z.ltb_spec 100 (Z.of_nat (length s))); case_decide; try lia; done.
Qed.

Lemma shown_short s : (length s ≤ 100)%nat → shown s = s.
Proof. intros Hs. unfold shown. case_decide; [lia|done]. Qed.

Lemma shown_long s : (100 < length s)%nat → shown s = take 100 s ++ lit "...".
Proof. intros Hs. unfold shown. case_decide; [done|lia]. Qed.

Section History.
Context `{Runtime}.

Lemma history_line_text clock k msg s :
  content msg = PStr s →
  history_line (Z.of_nat (S k)) (clock k) msg = Ok (text_line clock k (role msg) s).
Proof.
  intros Hs. unfold history_line, text_line. rewrite Hs, display_text. cbn.
  by rewrite str_of_PStr.
Qed.



End History.

(** ** The model identifier and the other settings *)

Lemma same_settings_refl self : same_settings self self.
Proof. by repeat split. Qed.

Lemma same_settings_trans a b c : same_settings a b → same_settings b c → same_settings a c.
Proof. intros (? & ? & ?) (? & ? & ?). repeat split; congruence. Qed.

Lemma bind_Ok_inv {A B} (m : outcome A) (f : A → outcome B) b :
  (m ≫= f) = Ok b → ∃ a, m = Ok a ∧ f a = Ok b.
Proof. destruct m as [a|e]; cbn; intros Hm; [eauto|done]. Qed.

Section Settings.
Context `{Runtime}.

Lemma extract_response_state parsed self response self' :
  extract_response parsed self = Ok (response, self') →
  self' = self ∨ self' = with_assistant response self.
Proof.
  unfold extract_response.
  intros (has & _ & (nonempty & _ & Hrest)%bind_Ok_inv)%bind_Ok_inv.
  destruct nonempty; [|left; cbv [mret outcome_ret] in Hrest; by simplify_eq].
  repeat (apply bind_Ok_inv in Hrest as (? & _ & Hrest)).
  right. cbv [mret outcome_ret] in Hrest. by simplify_eq.
Qed.

(** A call appends to the transcript and touches nothing else. *)
Lemma make_api_request_state net message self :
  (make_api_request net message self).2 = with_user message self
  ∨ ∃ reply, (make_api_request net message self).2
             = with_assistant reply (with_user message self).
Proof.
  unfold make_api_request. fold (with_user message self).
  destruct (_ ≫= _) as [[response self']|e] eqn:Hattempt.
  - do 3 (apply bind_Ok_inv in Hattempt as (? & _ & Hattempt)).
    apply extract_response_state in Hattempt. cbn. destruct Hattempt as [Hs|Hs]; rewrite Hs; eauto.
  - left. by destruct e.
Qed.

Lemma make_api_request_settings net message self :
  same_settings (make_api_request net message self).2 self
  ∧ model (make_api_request net message self).2 = model self.
Proof.
  destruct (make_api_request_state net message self) as [-> | [reply ->]];
    by repeat split.
Qed.

(** How a selection goes, by cases on what was typed. *)
Lemma select_model_cases typed self :
  (select_model typed self).1.2 = self
  ∨ ∃ line n name,
      typed = Ok line ∧ str_isdigit (str_strip line) = true
      ∧ int_of_str (str_strip line) = Ok n ∧ 1 ≤ n ≤ 3
      ∧ models !! Z.to_nat (n - 1) = Some name
      ∧ (select_model typed self).1.2 = set_model name self.
Proof.
  unfold select_model. destruct typed as [line|e]; [|by left].
  destruct (bool_decide _ && str_isdigit _) eqn:Hdigit; [|by left].
  apply andb_true_iff in Hdigit as [_ Hdigit].
  destruct (int_of_str _) as [n|e] eqn:Hint; [|by left].
  destruct ((0 <=? n - 1) && _) eqn:Hrange; [|by left].
  apply andb_true_iff in Hrange as [Hlo%Z.leb_le Hhi%Z.ltb_lt]. cbn in Hhi.
  destruct (models !! _) as [name|] eqn:Hname; [|by left].
  right. exists line, n, name. repeat split; try done; lia.
Qed.

Lemma switch_models_state typed self :
  (switch_models typed self).1.2 = (select_model typed self).1.2.
Proof.
  unfold switch_models. destruct (select_model typed self) as [[[[]|e] self'] out]; [done|].
  by destruct (is_Exception e).
Qed.

Lemma invalid_selection typed_line self n :
  str_strip typed_line ≠ [] →
  str_isdigit (str_strip typed_line) = true →
  int_of_str (str_strip typed_line) = Ok n →
  n < 1 ∨ 3 < n →
  ∃ menu,
    switch_models (Ok typed_line) self
    = (Ok (), self, menu ++ [Print INVALID_SELECTION; Print []]).
Proof.
  intros Hne Hdigit Hint Hn. unfold switch_models, select_model.
  rewrite Hdigit, Hint, bool_decide_true by done. cbn [andb].
  replace ((0 <=? n - 1) && (n - 1 <? Z.of_nat (length models))) with false; [by eexists|].
  symmetry. apply andb_false_iff. cbn.
  destruct Hn; [left; apply Z.leb_gt|right; apply Z.ltb_ge]; lia.
Qed.

Lemma loop_try_settings t self :
  same_settings (loop_try t self).1.2 self.
Proof.
  unfold loop_try. destruct (typed t) as [line|e]; [|apply same_settings_refl].
  repeat (case_bool_decide; [apply same_settings_refl|]).
  case_bool_decide.
  { destruct (show_history _ _). apply same_settings_refl. }
  case_bool_decide; [by repeat split|].
  case_bool_decide; [apply same_settings_refl|].
  case_bool_decide.
  { destruct (switch_models _ _) as [[r self'] out] eqn:Hsw. cbn.
    pose proof (switch_models_state (selection t) self) as Hst. rewrite Hsw in Hst. cbn in Hst.
    rewrite Hst. destruct (select_model_cases (selection t) self)
      as [-> | (? & ? & ? & _ & _ & _ & _ & _ & ->)]; by repeat split. }
  pose proof (make_api_request_settings (urlopen t) (str_strip line) self) as [Hs _].
  by destruct (make_api_request _ _ _) as [[response|e] self'].
Qed.

Lemma loop_body_settings t self : same_settings (loop_body t self).1.2 self.
Proof.
  unfold loop_body. pose proof (loop_try_settings t self) as Hs.
  destruct (loop_try t self) as [[[c|e] self'] out]; [done|]. by destruct (is_Exception e).
Qed.

Lemma run_loop_settings turns self : same_settings (run_loop turns self).1 self.
Proof.
  revert self. induction turns as [|t turns IH]; intros self; cbn; [apply same_settings_refl|].
  pose proof (loop_body_settings t self) as Hs.
  destruct (loop_body t self) as [[[] self'] out]; cbn in *; [|done].
  specialize (IH self'). destruct (run_loop turns self') as [self'' out'].
  by eapply same_settings_trans.
Qed.

Lemma selection_in_range typed_line self n :
  str_strip typed_line ≠ [] →
  str_isdigit (str_strip typed_line) = true →
  int_of_str (str_strip typed_line) = Ok n →
  1 ≤ n ≤ 3 →
  ∃ menu name,
    models !! Z.to_nat (n - 1) = Some name
    ∧ switch_models (Ok typed_line) self
      = (Ok (), set_model name self,
         menu ++ [Print (lit "✅ Switched to model: " ++ name); Print []]).
Proof.
  intros Hne Hdigit Hint Hn. unfold switch_models, select_model.
  rewrite Hdigit, Hint, bool_decide_true by done. cbn [andb].
  replace ((0 <=? n - 1) && (n - 1 <? Z.of_nat (length models))) with true.
  2: { symmetry. apply andb_true_iff. cbn. split; [apply Z.leb_le|apply Z.ltb_lt]; lia. }
  destruct (models !! Z.to_nat (n - 1)) as [name|] eqn:Hname.
  - by eexists _, name.
  - apply lookup_ge_None in Hname. cbn in Hname. lia.
Qed.

Lemma selection_not_digits typed_line self :
  str_strip typed_line = [] ∨ str_isdigit (str_strip typed_line) = false →
  ∃ menu,
    switch_models (Ok typed_line) self
    = (Ok (), self, menu ++ [Print (lit "Cancelled."); Print []]).
Proof.
  intros Hline. unfold switch_models, select_model.
  replace (bool_decide (str_strip typed_line ≠ []) && str_isdigit (str_strip typed_line))
    with false; [by eexists|].
  symmetry. apply andb_false_iff. destruct Hline as [Hempty|Hdigit]; [left|by right].
  by apply bool_decide_eq_false_2; intros [].
Qed.

Lemma selection_rejected_by_int typed_line self e :
  str_strip typed_line ≠ [] →
  str_isdigit (str_strip typed_line) = true →
  int_of_str (str_strip typed_line) = Raise e →
  is_Exception e = true →
  ∃ menu,
    switch_models (Ok typed_line) self
    = (Ok (), self,
       menu ++ [Print (lit "❌ Error switching models: " ++ exc_str e); Print []]).
Proof.
  intros Hne Hdigit Hint Hexc. unfold switch_models, select_model.
  rewrite Hdigit, Hint, bool_decide_true by done. cbn [andb]. rewrite Hexc. by eexists.
Qed.

(** C9, amended.  The selection is read as the code reads it: stripped,
    tested with [isdigit], converted with [int].
    - Made of digits, with a number outside 1..3: the object is left as
      it was and the invalid-selection line is printed.
    - Made of digits, with a number [n] within 1..3: the model
      identifier becomes the [n]-th name of the list, and that is said.
    - Empty or not made of digits (a signed number such as [-1] or [+7]
      is not): the object is left as it was and ["Cancelled."] is printed.
    - Made of digits that [int] rejects: the object is left as it was and
      the error line is printed.
    The model identifier is replaced only in the second case; and
    whatever the user types and the network answers, no command of the
    loop changes the credential, the endpoint or the token limit, nor
    does [make_api_request] or [reset_history] change the model. *)
Theorem only_valid_selection_changes_model :
  (∀ typed_line self n,
     str_strip typed_line ≠ [] →
     str_isdigit (str_strip typed_line) = true →
     int_of_str (str_strip typed_line) = Ok n →
     n < 1 ∨ 3 < n →
     ∃ menu,
       switch_models (Ok typed_line) self
       = (Ok (), self, menu ++ [Print INVALID_SELECTION; Print []]))
  ∧ (∀ typed_line self n,
       str_strip typed_line ≠ [] →
       str_isdigit (str_strip typed_line) = true →
       int_of_str (str_strip typed_line) = Ok n →
       1 ≤ n ≤ 3 →
       ∃ menu name,
         models !! Z.to_nat (n - 1) = Some name
         ∧ model (switch_models (Ok typed_line) self).1.2 = name
         ∧ conversation_history (switch_models (Ok typed_line) self).1.2
           = conversation_history self
         ∧ (switch_models (Ok typed_line) self).1.1 = Ok ()
         ∧ (switch_models (Ok typed_line) self).2
           = menu ++ [Print (lit "✅ Switched to model: " ++ name); Print []])
  ∧ (∀ typed_line self,
       str_strip typed_line = [] ∨ str_isdigit (str_strip typed_line) = false →
       ∃ menu,
         switch_models (Ok typed_line) self
         = (Ok (), self, menu ++ [Print (lit "Cancelled."); Print []]))
  ∧ (∀ typed_line self e,
       str_strip typed_line ≠ [] →
       str_isdigit (str_strip typed_line) = true →
       int_of_str (str_strip typed_line) = Raise e →
       is_Exception e = true →
       ∃ menu,
         switch_models (Ok typed_line) self
         = (Ok (), self,
            menu ++ [Print (lit "❌ Error switching models: " ++ exc_str e); Print []]))
  ∧ (∀ typed self,
       model (switch_models typed self).1.2 ≠ model self →
       ∃ line n,
         typed = Ok line ∧ str_isdigit (str_strip line) = true
         ∧ int_of_str (str_strip line) = Ok n ∧ 1 ≤ n ≤ 3
         ∧ models !! Z.to_nat (n - 1) = Some (model (switch_models typed self).1.2))
  ∧ (∀ typed self, same_settings (switch_models typed self).1.2 self)
  ∧ (∀ net message self,
       same_settings (make_api_request net message self).2 self
       ∧ model (make_api_request net message self).2 = model self)
  ∧ (∀ self, same_settings (reset_history self).1 self
             ∧ model (reset_history self).1 = model self)
  ∧ (∀ turns self, same_settings (run turns self).1 self).
Proof.
  split; [apply invalid_selection|].
  split.
  { intros typed_line self n Hne Hdigit Hint Hn.
    destruct (selection_in_range typed_line self n Hne Hdigit Hint Hn)
      as (menu & name & Hname & ->).
    by exists menu, name. }
  split; [apply selection_not_digits|]. split; [apply selection_rejected_by_int|].
  split; [|split; [|split; [|split]]].
  - intros typed self Hmodel. rewrite switch_models_state in *.
    destruct (select_model_cases typed self)
      as [Hsame | (line & n & name & -> & Hd & Hi & Hn & Hname & Hst)].
    + by rewrite Hsame in Hmodel.
    + exists line, n. rewrite Hst. by repeat split; try lia.
  - intros typed self. rewrite switch_models_state.
    destruct (select_model_cases typed self)
      as [-> | (? & ? & ? & _ & _ & _ & _ & _ & ->)]; by repeat split.
  - apply make_api_request_settings.
  - intros self. by repeat split.
  - intros turns self. unfold run. pose proof (run_loop_settings turns self) as Hs.
    by destruct (run_loop turns self).
Qed.
End Settings.

(** ** Replayed exchanges

    The statements above at concrete inputs, run with [Replay.runtime]. *)

Lemma hi_answers message self :
  answers (H:=Replay.runtime) (replies_with hi_body) message self (PStr (lit "hi")).
Proof.
  exists (PDict [(lit "message", PDict [(lit "content", PStr (lit "hi"))])]).
  split; [|reflexivity].
  exists hi_body, hi_text,
    [(lit "choices", PList [PDict [(lit "message", PDict [(lit "content", PStr (lit "hi"))])]])],
    [].
  repeat split; vm_compute; reflexivity.
Qed.

Lemma submit_hello_returns_hi_witness :
  ∃ self',
    make_api_request (H:=Replay.runtime) (replies_with hi_body) (lit "hello") fresh
    = (Ok (PStr (lit "hi")), self')
    ∧ conversation_history self'
      = conversation_history fresh
        ++ [{| role := user; content := PStr (lit "hello") |};
            {| role := assistant; content := PStr (lit "hi") |}]
    ∧ same_settings self' fresh ∧ model self' = model fresh.
Proof.
  apply (@submit_hello_returns_hi Replay.runtime (replies_with hi_body) fresh);
    vm_compute; reflexivity.
Defined.

Lemma no_choice_apology_witness :
  ∃ self',
    make_api_request (H:=Replay.runtime) (replies_with no_choices_body) (lit "hello") fresh
    = (Ok (PStr APOLOGY), self')
    ∧ conversation_history self'
      = conversation_history fresh ++ [{| role := user; content := PStr (lit "hello") |}].
Proof.
  apply (@no_choice_apology Replay.runtime (replies_with no_choices_body) (lit "hello") fresh
           no_choices_body (byte_val <$> no_choices_body) [(lit "choices", PList [])]);
    [vm_compute; reflexivity .. | right; vm_compute; reflexivity].
Defined.

Lemma malformed_first_choice_witness :
  ∃ self',
    make_api_request (H:=Replay.runtime) (replies_with empty_choice_body) (lit "hello") fresh
    = (Ok (PStr (ERROR_PREFIX ++ lit "'message'")), self')
    ∧ ERROR_PREFIX ++ lit "'message'" ≠ APOLOGY
    ∧ conversation_history self'
      = conversation_history fresh ++ [{| role := user; content := PStr (lit "hello") |}].
Proof.
  apply (@malformed_first_choice Replay.runtime (replies_with empty_choice_body) (lit "hello")
           fresh (PDict []) (KeyError (PStr (lit "message")))); [|reflexivity].
  exists empty_choice_body, (byte_val <$> empty_choice_body),
    [(lit "choices", PList [PDict []])], [].
  repeat split; vm_compute; reflexivity.
Defined.

Lemma first_choice_without_content :
  (make_api_request (H:=Replay.runtime) (replies_with empty_message_body) (lit "hello") fresh).1
  = Ok (PStr (lit "❌ Error: 'content'")).
Proof. vm_compute. reflexivity. Qed.

(** C3 as stated fails: one call answered with [{"choices":[{}]}], a
    response with one choice, leaves a transcript of one message, not
    two; the call returned the generic error text. *)
Lemma one_choice_one_message :
  has_a_choice (H:=Replay.runtime) (replies_with empty_choice_body) (lit "hello") fresh
    (PDict [])
  ∧ conversation_history fresh = []
  ∧ submit_all (H:=Replay.runtime) [(lit "hello", replies_with empty_choice_body)] fresh
    = ([Ok (PStr (lit "❌ Error: 'message'"))], with_user (lit "hello") fresh)
  ∧ length (conversation_history (with_user (lit "hello") fresh)) = 1%nat
  ∧ length (conversation_history (with_user (lit "hello") fresh)) ≠ (2 * 1)%nat.
Proof.
  split.
  - exists empty_choice_body, (byte_val <$> empty_choice_body),
      [(lit "choices", PList [PDict []])], [].
    repeat split; vm_compute; reflexivity.
  - repeat split; try (vm_compute; reflexivity). vm_compute. discriminate.
Qed.

Lemma completed_exchanges_transcript_witness :
  let calls := [(lit "hello", replies_with hi_body); (lit "again", replies_with hi_body)] in
  let replies := [PStr (lit "hi"); PStr (lit "hi")] in
  (submit_all (H:=Replay.runtime) calls fresh).1 = Ok <$> replies
  ∧ length (conversation_history (submit_all (H:=Replay.runtime) calls fresh).2)
    = (2 * length calls)%nat
  ∧ ∀ i message reply,
      calls.*1 !! i = Some message → replies !! i = Some reply →
      conversation_history (submit_all (H:=Replay.runtime) calls fresh).2 !! (2 * i)%nat
      = Some {| role := user; content := PStr message |}
      ∧ conversation_history (submit_all (H:=Replay.runtime) calls fresh).2 !! (2 * i + 1)%nat
        = Some {| role := assistant; content := reply |}.
Proof.
  apply (@completed_exchanges_transcript Replay.runtime fresh); [reflexivity|].
  repeat (constructor; [apply hi_answers|]). constructor.
Defined.

(** C6 as stated fails: for status 500 and the body
    [{"error":{"message":"boom"}}] the returned text carries the message
    but not the status. *)
Lemma nested_message_drops_status :
  make_api_request (H:=Replay.runtime) (fails_with 500 boom_body) (lit "hello") fresh
  = (Ok (PStr (lit "❌ API Error: boom")), with_user (lit "hello") fresh)
  ∧ occurs_in (str_of_int 500) (lit "❌ API Error: boom") = false
  ∧ lit "❌ API Error: boom" ≠ lit "❌ API Error (500): boom".
Proof. repeat split; try (vm_compute; reflexivity). vm_compute. discriminate. Qed.

Lemma other_status_error_text_witness :
  make_api_request (H:=Replay.runtime) (fails_with 503 (bytes_lit "Service Unavailable"))
    (lit "hello") fresh
  = (Ok (PStr (lit "❌ API Error (503): Service Unavailable")), with_user (lit "hello") fresh).
Proof.
  exact (@other_status_error_text Replay.runtime
           (fails_with 503 (bytes_lit "Service Unavailable")) (lit "hello") fresh 503
           (bytes_lit "Service Unavailable") (lit "Service Unavailable")
           eq_refl eq_refl ltac:(lia) ltac:(lia) ltac:(lia)).
Defined.


Lemma only_valid_selection_changes_model_witness :
  (∃ menu,
     switch_models (H:=Replay.runtime) (Ok (lit " 7 ")) fresh
     = (Ok (), fresh, menu ++ [Print INVALID_SELECTION; Print []]))
  ∧ model (switch_models (H:=Replay.runtime) (Ok (lit " 2 ")) fresh).1.2 = lit "gpt-4".
Proof.
  split.
  - apply (proj1 (@only_valid_selection_changes_model Replay.runtime) (lit " 7 ") fresh 7);
      [vm_compute; discriminate | vm_compute; reflexivity | vm_compute; reflexivity | lia].
  - destruct (proj1 (proj2 (@only_valid_selection_changes_model Replay.runtime))
                (lit " 2 ") fresh 2) as (menu & name & Hname & -> & _);
      [vm_compute; discriminate | vm_compute; reflexivity | vm_compute; reflexivity | lia |].
    vm_compute in Hname. by injection Hname as <-.
Defined.

(** C9 as stated fails: [-1] is a numeric selection outside 1..3, yet
    it is not reported as invalid; it is taken as a cancellation. *)
Lemma signed_selection_is_not_reported_invalid :
  switch_models (H:=Replay.runtime) (Ok (lit "-1")) fresh
  = (Ok (), fresh,
     [Print (nl ++ lit "🤖 Available Models:");
      Print (lit "  1. gpt-3.5-turbo");
      Print (lit "  2. gpt-4");
      Print (lit "  3. gpt-4-turbo-preview");
      Prompt (nl ++ lit "Select model number (or press Enter to cancel): ");
      Print (lit "Cancelled.");
      Print []])
  ∧ Print INVALID_SELECTION
    ∉ (switch_models (H:=Replay.runtime) (Ok (lit "-1")) fresh).2.
Proof.
  split; [vm_compute; reflexivity|].
  rewrite list_elem_of_In. vm_compute. intuition discriminate.
Qed.

(** A selection that is not made of digits (a negative number, a word,
    nothing at all) is answered with ["Cancelled."] and changes nothing;
    one within 1..3 installs the model it designates. *)
Lemma selection_a_negative_number_is_cancelled :
  ∃ menu,
    switch_models (H:=Replay.runtime) (Ok (lit "-1")) fresh
    = (Ok (), fresh, menu ++ [Print (lit "Cancelled."); Print []]).
Proof. eexists (_ :: _ :: _ :: _ :: [_]). vm_compute. reflexivity. Qed.

Lemma selection_two_installs_gpt4 :
  (switch_models (H:=Replay.runtime) (Ok (lit "2")) fresh).1
  = (Ok (), set_model (lit "gpt-4") fresh).
Proof. vm_compute. reflexivity. Qed.

(** A whole session: a chat turn, the history, a reset and leaving. *)
Lemma session_replay :
  let session :=
    run (H:=Replay.runtime) [says "hello"; says "History"; says " reset "; says "bye"] fresh in
  session.1 = fresh
  ∧ Print (nl ++ lit "🤖 AI: hi") ∈ session.2
  ∧ Print (lit " 1. [09:30] You: hello") ∈ session.2
  ∧ Print (lit " 2. [09:30] AI: hi") ∈ session.2
  ∧ last session.2 = Some (Print (nl ++ lit "👋 Goodbye! Thanks for chatting with me!")).
Proof.
  cbv zeta. repeat split; try (vm_compute; reflexivity);
    apply list_elem_of_In; vm_compute; tauto.
Qed.

(** The exception of [unauthorized_latin1_body_raises] reaches the loop,
    whose generic handler reports it and goes on. *)
Lemma undecodable_error_body_reaches_the_loop :
  let turn :=
    {| typed := Ok (lit "hello"); selection := Raise EOFError;
       urlopen := fails_with 401 latin1_body; clock := λ _, lit "09:30" |} in
  loop_body (H:=Replay.runtime) turn fresh
  = (Continue, with_user (lit "hello") fresh,
     [Prompt (nl ++ lit "💬 You: ");
      Print (nl ++ lit "🤔 AI is thinking...");
      Print (nl ++ lit "❌ Unexpected error: 'utf-8' codec can't decode byte 0xe8 in position 3: invalid continuation byte");
      Print (lit "Please try again or type 'quit' to exit.")]).
Proof. vm_compute. reflexivity. Qed.

(** A content that is not text is returned and stored as it came; the
    history display then stops at it with a [TypeError]. *)
Lemma null_content_is_stored_as_received :
  let after :=
    make_api_request (H:=Replay.runtime) (replies_with null_content_body) (lit "hello") fresh in
  after = (Ok PNone, with_assistant PNone (with_user (lit "hello") fresh))
  ∧ (show_history (H:=Replay.runtime) (λ _, lit "09:30") after.2).1
    = Raise (TypeError OpLen PNone).
Proof. split; vm_compute; reflexivity. Qed.

(** ** Every way a call can go *)

Lemma with_assistant_neq reply self : with_assistant reply self ≠ self.
Proof.
  intros Heq. apply (f_equal (λ s, length (conversation_history s))) in Heq.
  cbn in Heq. rewrite length_app in Heq. cbn in Heq. lia.
Qed.

Lemma py_getitem_key_inv v k x :
  py_getitem v (Key k) = Ok x → ∃ d, v = PDict d ∧ dict_get k d = Some x.
Proof.
  destruct v; cbn; intros Hv; try done.
  destruct (dict_get k entries) eqn:Hk; simplify_eq. eauto.
Qed.

Lemma py_getitem_first_inv v x y :
  py_getitem v (Index 0) = Ok x → py_getitem x (Key (lit "message")) = Ok y →
  ∃ rest, v = PList (x :: rest).
Proof.
  destruct v; intros Hv Hx; try done.
  - unfold py_getitem in Hv. destruct (seq_index s 0); by simplify_eq.
  - destruct items as [|x' rest]; [done|].
    unfold py_getitem in Hv. rewrite seq_index_first in Hv. simplify_eq. eauto.
Qed.

Section Cases.
Context `{Runtime}.

Lemma make_api_request_unfold net message self :
  make_api_request net message self
  = match try_body net (with_user message self) with
    | Ok (response, self') => (Ok response, self')
    | Raise (HTTPError code fp) => (on_http_error code fp, with_user message self)
    | Raise e =>
      if is_Exception e
      then (Ok (PStr (ERROR_PREFIX ++ exc_str e)), with_user message self)
      else (Raise e, with_user message self)
    end.
Proof. reflexivity. Qed.

(** When [extract_response] returns, it returns the apology and leaves
    the object alone, or the response had a first choice with
    [message.content]. *)
Lemma extract_response_Ok_inv parsed self r self' :
  extract_response parsed self = Ok (r, self') →
  (r = PStr APOLOGY ∧ self' = self)
  ∨ (self' = with_assistant r self
     ∧ ∃ d first rest,
         parsed = PDict d
         ∧ dict_get (lit "choices") d = Some (PList (first :: rest))
         ∧ choice_content first = Ok r).
Proof.
  unfold extract_response.
  intros (has & _ & (nonempty & _ & Hrest)%bind_Ok_inv)%bind_Ok_inv.
  destruct nonempty; [|left; cbv [mret outcome_ret] in Hrest; by simplify_eq].
  apply bind_Ok_inv in Hrest as (choices & Hchoices & Hrest).
  apply bind_Ok_inv in Hrest as (first & Hfirst & Hrest).
  apply bind_Ok_inv in Hrest as (msg & Hmsg & Hrest).
  apply bind_Ok_inv in Hrest as (c & Hc & Hrest).
  cbv [mret outcome_ret] in Hrest. simplify_eq. right. split; [done|].
  apply py_getitem_key_inv in Hchoices as (d & -> & Hd).
  destruct (py_getitem_first_inv _ _ _ Hfirst Hmsg) as [rest ->].
  exists d, first, rest. repeat split; try done.
  unfold choice_content. by rewrite Hmsg.
Qed.

Lemma answers_try_body net message self reply :
  answers net message self reply →
  try_body net (with_user message self)
  = Ok (reply, with_assistant reply (with_user message self)).
Proof.
  intros (first & (body & text & d & rest & Hnet & Hbody & Hparse & Hd) & Hc).
  unfold try_body. rewrite Hnet, bind_Ok, Hbody, bind_Ok, Hparse, bind_Ok.
  by rewrite (extract_first_choice _ _ _ _ Hd), Hc.
Qed.

(** A call either is answered, and then returns the reply and appends it,
    or leaves the object with the user message only. *)
Lemma make_api_request_cases net message self :
  (∃ reply, answers net message self reply
            ∧ make_api_request net message self
              = (Ok reply, with_assistant reply (with_user message self)))
  ∨ ((make_api_request net message self).2 = with_user message self
     ∧ ∀ reply, ¬ answers net message self reply).
Proof.
  rewrite make_api_request_unfold.
  destruct (try_body net (with_user message self)) as [[r self']|e] eqn:Htry.
  - pose proof Htry as Htry'. unfold try_body in Htry'.
    apply bind_Ok_inv in Htry' as (body & Hnet & Htry').
    apply bind_Ok_inv in Htry' as (text & Hbody & Htry').
    apply bind_Ok_inv in Htry' as (parsed & Hparse & Hex).
    apply extract_response_Ok_inv in Hex
      as [[-> ->] | [-> (d & first & rest & -> & Hd & Hc)]].
    + right. split; [done|]. intros reply Hans%answers_try_body.
      rewrite Htry in Hans. injection Hans as _ Hst.
      apply (f_equal length) in Hst. rewrite !length_app in Hst. cbn in Hst. lia.
    + left. exists r. split; [|done]. exists first. split; [|done].
      by exists body, text, d, rest.
  - right. split; [by destruct e; cbn; try destruct (is_Exception _)|].
    intros reply Hans%answers_try_body. by rewrite Htry in Hans.
Qed.

(** X1.  When [urlopen] raises anything but an [HTTPError] (no route, a
    timeout, a reset connection), the call does not raise: it returns
    ["❌ Error: "] followed by [str(e)], and the transcript has gained the
    user message only. *)
Theorem transport_failure_is_reported net message self e :
  net (request_for (with_user message self)) = Raise e →
  caught_by_generic_handler e →
  make_api_request net message self
  = (Ok (PStr (ERROR_PREFIX ++ exc_str e)), with_user message self).
Proof.
  intros Hnet [Hexc Hnot]. rewrite make_api_request_unfold. unfold try_body.
  rewrite Hnet. cbn. destruct e; try done. by destruct (Hnot code fp).
Qed.

(** X2.  On a 2xx response whose body is not UTF-8, or is not JSON, the
    failure is caught (unlike in the handler of HTTP errors): the call
    returns ["❌ Error: "] followed by [str(e)] and the transcript has
    gained the user message only. *)
Theorem unreadable_success_body_is_reported net message self body e :
  net (request_for (with_user message self)) = Ok body →
  (bytes_decode body ≫= json_loads) = Raise e →
  caught_by_generic_handler e →
  make_api_request net message self
  = (Ok (PStr (ERROR_PREFIX ++ exc_str e)), with_user message self).
Proof.
  intros Hnet Hread [Hexc Hnot]. rewrite make_api_request_unfold. unfold try_body.
  rewrite Hnet. cbn.
  assert ((bytes_decode body ≫= λ text, json_loads text
           ≫= λ result, extract_response result (with_user message self)) = Raise e) as ->.
  { destruct (bytes_decode body) as [text|e']; cbn in *; [|congruence]. by rewrite Hread. }
  destruct e; try done. by destruct (Hnot code fp).
Qed.

(** X3.  Status 429 gives the rate-limit text and status 400 the
    bad-request text, whatever the (UTF-8) body says, an [error.message]
    included; the transcript has gained the user message only. *)
Theorem rate_limit_and_bad_request_texts net message self code fp error_msg :
  net (request_for (with_user message self)) = Raise (HTTPError code fp) →
  bytes_decode fp = Ok error_msg →
  code = 429 ∨ code = 400 →
  make_api_request net message self
  = (Ok (PStr (if code =? 429 then RATE_LIMITED else BAD_REQUEST)),
     with_user message self).
Proof.
  intros Hnet Hfp Hcode. rewrite (status_text _ _ _ _ _ _ Hnet Hfp).
  by destruct Hcode as [-> | ->].
Qed.

(** X4.  The transcript gains an assistant message exactly when the call
    is answered: a 2xx body that parses to an object whose [choices] is a
    non-empty array whose first element has [message.content].  The
    message appended is that content. *)
Theorem assistant_appended_iff_answered net message self reply :
  (make_api_request net message self).2 = with_assistant reply (with_user message self)
  ↔ answers net message self reply.
Proof.
  split.
  - intros Hst. destruct (make_api_request_cases net message self)
      as [(r & Hans & Heq) | [Hsame _]].
    + rewrite Heq in Hst. cbn in Hst.
      apply (f_equal conversation_history) in Hst. cbn in Hst.
      apply app_inj_tail in Hst as [_ Hm]. by simplify_eq.
    + rewrite Hsame in Hst. by destruct (with_assistant_neq reply (with_user message self)).
  - intros Hans. rewrite make_api_request_unfold. by rewrite (answers_try_body _ _ _ _ Hans).
Qed.

(** X5.  A call only appends: the transcript before it is kept as it
    was, the user message always follows (also when the call fails), and
    at most one more message comes after it, the assistant message with
    the value the call returned. *)
Theorem call_only_appends net message self :
  ∃ added,
    conversation_history (make_api_request net message self).2
    = conversation_history self ++ {| role := user; content := PStr message |} :: added
    ∧ (added = []
       ∨ ∃ reply, added = [{| role := assistant; content := reply |}]
                  ∧ (make_api_request net message self).1 = Ok reply).
Proof.
  destruct (make_api_request_cases net message self) as [(r & _ & ->) | [-> _]].
  - exists [{| role := assistant; content := r |}]. cbn. rewrite <- app_assoc. eauto.
  - exists []. eauto.
Qed.
End Cases.

Lemma transport_failure_is_reported_witness :
  make_api_request (H:=Replay.runtime) unreachable (lit "hello") fresh
  = (Ok (PStr (lit "❌ Error: <urlopen error [Errno -2] Name or service not known>")),
     with_user (lit "hello") fresh).
Proof.
  apply (@transport_failure_is_reported Replay.runtime unreachable (lit "hello") fresh
           (URLError (lit "[Errno -2] Name or service not known"))); [reflexivity|].
  split; [reflexivity|discriminate].
Defined.

Lemma unreadable_success_body_is_reported_witness :
  make_api_request (H:=Replay.runtime) (replies_with latin1_body) (lit "hello") fresh
  = (Ok (PStr (lit "❌ Error: 'utf-8' codec can't decode byte 0xe8 in position 3: invalid continuation byte")),
     with_user (lit "hello") fresh).
Proof.
  apply (@unreadable_success_body_is_reported Replay.runtime (replies_with latin1_body)
           (lit "hello") fresh latin1_body (UnicodeDecodeError latin1_body));
    [reflexivity | reflexivity | split; [reflexivity|discriminate]].
Defined.

Lemma rate_limit_and_bad_request_texts_witness :
  make_api_request (H:=Replay.runtime) (fails_with 429 boom_body) (lit "hello") fresh
  = (Ok (PStr RATE_LIMITED), with_user (lit "hello") fresh).
Proof.
  apply (@rate_limit_and_bad_request_texts Replay.runtime (fails_with 429 boom_body)
           (lit "hello") fresh 429 boom_body (byte_val <$> boom_body));
    [reflexivity | reflexivity | by left].
Defined.

(** ** The transcript over several calls and over the loop *)

Lemma user_turns_app h1 h2 : user_turns (h1 ++ h2) = (user_turns h1 + user_turns h2)%nat.
Proof. induction h1 as [|m h1 IH]; cbn; [done|]. rewrite IH. lia. Qed.

Lemma messages_sent_request self :
  messages_sent (request_for self) = message_value <$> conversation_history self.
Proof. reflexivity. Qed.

Lemma replies_follow_texts_nil : replies_follow_texts [].
Proof. intros i m Hi. by rewrite lookup_nil in Hi. Qed.

Lemma replies_follow_texts_user h message :
  replies_follow_texts h →
  replies_follow_texts (h ++ [{| role := user; content := PStr message |}]).
Proof.
  intros Hh i m Hi Hrole. destruct (decide (i < length h)%nat) as [Hlt|Hge].
  - rewrite lookup_app_l in Hi by done. destruct (Hh i m Hi Hrole) as (j & u & -> & Hj & Hu).
    exists j, u. rewrite lookup_app_l by lia. done.
  - rewrite lookup_app_r in Hi by lia.
    destruct (i - length h)%nat; cbn in Hi; by simplify_eq.
Qed.

Lemma replies_follow_texts_pair h message reply :
  replies_follow_texts h →
  replies_follow_texts (h ++ [{| role := user; content := PStr message |};
                              {| role := assistant; content := reply |}]).
Proof.
  intros Hh i m Hi Hrole. destruct (decide (i < length h)%nat) as [Hlt|Hge].
  - rewrite lookup_app_l in Hi by done. destruct (Hh i m Hi Hrole) as (j & u & -> & Hj & Hu).
    exists j, u. rewrite lookup_app_l by lia. done.
  - rewrite lookup_app_r in Hi by lia.
    destruct (i - length h)%nat as [|[|k]] eqn:Hk; cbn in Hi; simplify_eq.
    exists (length h), {| role := user; content := PStr message |}.
    split; [lia|]. split; [|done]. rewrite lookup_app_r by lia. by rewrite Nat.sub_diag.
Qed.

Section Transcript.
Context `{Runtime}.

(** X6.  Whatever the network does, [n] calls add exactly [n] user
    messages to the transcript, and between [n] and [2 * n] messages in
    all. *)
Theorem every_call_adds_one_user_message calls self :
  user_turns (conversation_history (submit_all calls self).2)
  = (user_turns (conversation_history self) + length calls)%nat
  ∧ (length (conversation_history self) + length calls
     ≤ length (conversation_history (submit_all calls self).2)
     ≤ length (conversation_history self) + 2 * length calls)%nat.
Proof.
  revert self. induction calls as [|[message net] calls IH]; intros self; cbn; [lia|].
  destruct (make_api_request net message self) as [r self'] eqn:Hcall.
  specialize (IH self'). destruct (submit_all calls self') as [rs self''].
  cbn in *. destruct (make_api_request_cases net message self) as [(reply & _ & Heq) | [Heq _]];
    rewrite Hcall in Heq; simplify_eq/=;
    rewrite ?user_turns_app, ?length_app in IH; cbn in IH; lia.
Qed.

(** The object after one turn is the one before it, or the one a
    housekeeping method or a call has left. *)
Lemma loop_body_state t self :
  (loop_body t self).1.2 = self
  ∨ (loop_body t self).1.2 = (reset_history self).1
  ∨ (loop_body t self).1.2 = (switch_models (selection t) self).1.2
  ∨ ∃ line, typed t = Ok line
            ∧ (loop_body t self).1.2
              = (make_api_request (urlopen t) (str_strip line) self).2.
Proof.
  assert ((loop_body t self).1.2 = (loop_try t self).1.2) as ->.
  { unfold loop_body. destruct (loop_try t self) as [[[c|e] s] out]; [done|].
    by destruct (is_Exception e). }
  unfold loop_try. destruct (typed t) as [line|e]; [|by left].
  repeat (case_bool_decide; [by left|]).
  case_bool_decide; [left; by destruct (show_history _ _)|].
  case_bool_decide; [right; by left|].
  case_bool_decide; [by left|].
  case_bool_decide.
  { right. right. left. by destruct (switch_models _ _) as [[r self'] out]. }
  right. right. right. exists line. split; [done|].
  by destruct (make_api_request _ _ _) as [[response|e] self'].
Qed.

(** What one turn of the loop does to the transcript: nothing, a reset,
    or what a call does. *)
Lemma loop_body_history t self :
  let h := conversation_history self in
  let h' := conversation_history (loop_body t self).1.2 in
  h' = h ∨ h' = []
  ∨ ∃ message,
      h' = h ++ [{| role := user; content := PStr message |}]
      ∨ ∃ reply, h' = h ++ [{| role := user; content := PStr message |};
                            {| role := assistant; content := reply |}].
Proof.
  cbv zeta. destruct (loop_body_state t self) as [-> | [-> | [-> | (line & _ & ->)]]].
  - by left.
  - right. by left.
  - left. rewrite switch_models_state.
    by destruct (select_model_cases (selection t) self)
      as [-> | (? & ? & ? & _ & _ & _ & _ & _ & ->)].
  - right. right. exists (str_strip line).
    destruct (make_api_request_state (urlopen t) (str_strip line) self) as [-> | [reply ->]];
      [by left|right]. exists reply. cbn. by rewrite <- app_assoc.
Qed.

Lemma loop_body_replies_follow_texts t self :
  replies_follow_texts (conversation_history self) →
  replies_follow_texts (conversation_history (loop_body t self).1.2).
Proof.
  intros Hh. destruct (loop_body_history t self)
    as [-> | [-> | (message & [-> | (reply & ->)])]].
  - done.
  - apply replies_follow_texts_nil.
  - by apply replies_follow_texts_user.
  - by apply replies_follow_texts_pair.
Qed.

(** X7.  Whatever is typed and whatever the network does, the loop
    keeps this invariant of the transcript: every assistant message comes
    right after a user message (so it never starts with a reply and never
    holds two replies in a row). *)
Theorem run_keeps_replies_after_texts turns self :
  replies_follow_texts (conversation_history self) →
  replies_follow_texts (conversation_history (run turns self).1).
Proof.
  intros Hh. assert (replies_follow_texts (conversation_history (run_loop turns self).1)) as Hloop.
  { revert self Hh. induction turns as [|t turns IH]; intros self Hh; cbn; [done|].
    pose proof (loop_body_replies_follow_texts t self Hh) as Hs.
    destruct (loop_body t self) as [[[] self'] out]; cbn in *; [|done].
    specialize (IH self' Hs). by destruct (run_loop turns self'). }
  unfold run. by destruct (run_loop turns self).
Qed.

Lemma loop_body_model t self :
  model (loop_body t self).1.2 = model self ∨ model (loop_body t self).1.2 ∈ models.
Proof.
  destruct (loop_body_state t self) as [-> | [-> | [-> | (line & _ & ->)]]].
  - by left.
  - by left.
  - rewrite switch_models_state.
    destruct (select_model_cases (selection t) self)
      as [-> | (? & ? & name & _ & _ & _ & _ & Hname & ->)]; [by left|right].
    cbn. by eapply list_elem_of_lookup_2.
  - left. apply make_api_request_settings.
Qed.

(** X8.  Over any run of the loop the model identifier is the one the
    object started with or one of the three the menu offers; once it is
    one of the three it stays one of them.  The model a new object starts
    with is not among the three, so it cannot be selected again. *)
Theorem run_model_is_initial_or_offered :
  (∀ turns self,
     model (run turns self).1 = model self ∨ model (run turns self).1 ∈ models)
  ∧ (∀ turns self, model self ∈ models → model (run turns self).1 ∈ models)
  ∧ (∀ fallback_key key, model (init fallback_key key) ∉ models).
Proof.
  assert (∀ turns self,
            model (run_loop turns self).1 = model self ∨ model (run_loop turns self).1 ∈ models)
    as Hloop.
  { induction turns as [|t turns IH]; intros self; cbn; [by left|].
    pose proof (loop_body_model t self) as Hm.
    destruct (loop_body t self) as [[[] self'] out]; cbn in *; [|done].
    specialize (IH self'). destruct (run_loop turns self') as [self'' out']. cbn in *.
    destruct IH as [->|]; [done|by right]. }
  assert (∀ turns self,
            model (run turns self).1 = model self ∨ model (run turns self).1 ∈ models) as Hrun.
  { intros turns self. unfold run. specialize (Hloop turns self).
    by destruct (run_loop turns self). }
  split; [done|]. split.
  - intros turns self Hin. by destruct (Hrun turns self) as [->|].
  - intros fallback_key key Hin. cbn in Hin.
    repeat (apply elem_of_cons in Hin as [Hin|Hin]; [by vm_compute in Hin|]).
    by apply elem_of_nil in Hin.
Qed.
End Transcript.

Lemma run_keeps_replies_after_texts_witness :
  replies_follow_texts
    (conversation_history (run (H:=Replay.runtime) [says "hello"; says "again"] fresh).1).
Proof.
  apply (@run_keeps_replies_after_texts Replay.runtime [says "hello"; says "again"] fresh).
  apply replies_follow_texts_nil.
Defined.

Section Context_sent.
Context `{Runtime}.

(** X9.  Nothing is ever dropped from what is sent: after [n] answered
    calls from an empty transcript, the request of the next call carries
    the whole dialogue and the new text, [2 * n + 1] messages. *)
Theorem next_request_carries_whole_transcript self calls replies message :
  conversation_history self = [] →
  completed self calls replies →
  messages_sent (request_for (with_user message (submit_all calls self).2))
  = message_value <$> (dialogue calls.*1 replies
                       ++ [{| role := user; content := PStr message |}])
  ∧ length (messages_sent (request_for (with_user message (submit_all calls self).2)))
    = (2 * length calls + 1)%nat.
Proof.
  intros Hempty Hall. rewrite messages_sent_request.
  destruct (submit_all_completed _ _ _ Hall) as [_ Hh]. cbn. rewrite Hh, Hempty. cbn.
  split; [done|]. rewrite length_fmap, length_app, dialogue_length; cbn.
  - rewrite length_fmap. lia.
  - rewrite length_fmap. by eapply completed_lengths.
Qed.

(** X10.  A call that is not answered leaves its text in the transcript,
    and the next call sends it again: after a failed call and an answered
    one the transcript holds both texts and then the reply. *)
Theorem failed_turn_stays_in_transcript net1 m1 net2 m2 self reply :
  (∀ r, ¬ answers net1 m1 self r) →
  answers net2 m2 (with_user m1 self) reply →
  conversation_history (submit_all [(m1, net1); (m2, net2)] self).2
  = conversation_history self
    ++ [{| role := user; content := PStr m1 |};
        {| role := user; content := PStr m2 |};
        {| role := assistant; content := reply |}]
  ∧ (submit_all [(m1, net1); (m2, net2)] self).1 !! 1%nat = Some (Ok reply).
Proof.
  intros Hfail Hans. cbn.
  destruct (make_api_request net1 m1 self) as [r1 self1] eqn:Hcall.
  destruct (make_api_request_cases net1 m1 self) as [(r & Hr & _) | [Hst _]];
    [by destruct (Hfail r)|].
  rewrite Hcall in Hst. cbn in Hst. subst self1.
  rewrite (answered_call _ _ _ _ Hans). cbn. split; [|done].
  by rewrite <- !app_assoc.
Qed.

(** X11.  [reset_history] forgets the context: whatever the transcript
    held, the request of the next call carries the new text alone, and
    once that call is answered the transcript is the text and its
    reply. *)
Theorem reset_then_exchange net message self reply :
  answers net message (reset_history self).1 reply →
  messages_sent (request_for (with_user message (reset_history self).1))
  = [message_value {| role := user; content := PStr message |}]
  ∧ conversation_history (make_api_request net message (reset_history self).1).2
    = [{| role := user; content := PStr message |};
       {| role := assistant; content := reply |}].
Proof.
  intros Hans. split; [done|]. by rewrite (answered_call _ _ _ _ Hans).
Qed.
End Context_sent.

Lemma next_request_carries_whole_transcript_witness :
  let calls := [(lit "hello", replies_with hi_body); (lit "again", replies_with hi_body)] in
  length (messages_sent
            (request_for
               (with_user (lit "more") (submit_all (H:=Replay.runtime) calls fresh).2)))
  = 5%nat.
Proof.
  apply (@next_request_carries_whole_transcript Replay.runtime fresh
           [(lit "hello", replies_with hi_body); (lit "again", replies_with hi_body)]
           [PStr (lit "hi"); PStr (lit "hi")] (lit "more")); [reflexivity|].
  repeat (constructor; [apply hi_answers|]). constructor.
Defined.

Lemma failed_turn_stays_in_transcript_witness :
  conversation_history
    (submit_all (H:=Replay.runtime)
       [(lit "hello", fails_with 429 boom_body); (lit "again", replies_with hi_body)]
       fresh).2
  = [{| role := user; content := PStr (lit "hello") |};
     {| role := user; content := PStr (lit "again") |};
     {| role := assistant; content := PStr (lit "hi") |}].
Proof.
  apply (@failed_turn_stays_in_transcript Replay.runtime (fails_with 429 boom_body)
           (lit "hello") (replies_with hi_body) (lit "again") fresh (PStr (lit "hi"))).
  - intros r (first & (body & text & d & rest & Hnet & _) & _). discriminate Hnet.
  - apply hi_answers.
Defined.

Lemma reset_then_exchange_witness :
  conversation_history
    (make_api_request (H:=Replay.runtime) (replies_with hi_body) (lit "hello")
       (reset_history two_messages).1).2
  = [{| role := user; content := PStr (lit "hello") |};
     {| role := assistant; content := PStr (lit "hi") |}].
Proof.
  apply (@reset_then_exchange Replay.runtime (replies_with hi_body) (lit "hello")
           two_messages (PStr (lit "hi"))).
  apply hi_answers.
Defined.

(** ** More on [switch_models] *)

Section Selection.
Context `{Runtime}.

(** X12.  A selection made of digits whose number [n] is within 1..3
    sets the model identifier to the [n]-th name of the list and says so;
    the transcript and the other settings are kept, so the next request
    carries the same dialogue to the new model. *)
Theorem valid_selection_installs_model typed_line self n :
  str_strip typed_line ≠ [] →
  str_isdigit (str_strip typed_line) = true →
  int_of_str (str_strip typed_line) = Ok n →
  1 ≤ n ≤ 3 →
  ∃ menu name,
    models !! Z.to_nat (n - 1) = Some name
    ∧ model (switch_models (Ok typed_line) self).1.2 = name
    ∧ switch_models (Ok typed_line) self
      = (Ok (), set_model name self,
         menu ++ [Print (lit "✅ Switched to model: " ++ name); Print []])
    ∧ conversation_history (set_model name self) = conversation_history self
    ∧ same_settings (set_model name self) self.
Proof.
  intros Hne Hdigit Hint Hn. unfold switch_models, select_model.
  rewrite Hdigit, Hint, bool_decide_true by done. cbn [andb].
  replace ((0 <=? n - 1) && (n - 1 <? Z.of_nat (length models))) with true.
  2: { symmetry. apply andb_true_iff. cbn. split; [apply Z.leb_le|apply Z.ltb_lt]; lia. }
  destruct (models !! Z.to_nat (n - 1)) as [name|] eqn:Hname.
  - eexists _, name. by repeat split.
  - apply lookup_ge_None in Hname. cbn in Hname. lia.
Qed.

(** X13.  An empty line, or a line that is not made of digits, is a
    cancellation: nothing changes and ["Cancelled."] is printed. *)
Theorem other_selection_cancels typed_line self :
  str_strip typed_line = [] ∨ str_isdigit (str_strip typed_line) = false →
  ∃ menu,
    switch_models (Ok typed_line) self
    = (Ok (), self, menu ++ [Print (lit "Cancelled."); Print []]).
Proof.
  intros Hline. unfold switch_models, select_model.
  replace (bool_decide (str_strip typed_line ≠ []) && str_isdigit (str_strip typed_line))
    with false; [by eexists|].
  symmetry. apply andb_false_iff. destruct Hline as [Hempty|Hdigit]; [left|by right].
  by apply bool_decide_eq_false_2; intros [].
Qed.

End Selection.

Lemma valid_selection_installs_model_witness :
  model (switch_models (H:=Replay.runtime) (Ok (lit " 3 ")) fresh).1.2
  = lit "gpt-4-turbo-preview"
  ∧ ∃ menu,
      switch_models (H:=Replay.runtime) (Ok (lit " 3 ")) fresh
      = (Ok (), set_model (lit "gpt-4-turbo-preview") fresh,
         menu ++ [Print (lit "✅ Switched to model: gpt-4-turbo-preview"); Print []]).
Proof.
  destruct (@valid_selection_installs_model Replay.runtime (lit " 3 ") fresh 3)
    as (menu & name & Hname & Hmodel & Hswitch & _);
    [vm_compute; discriminate | vm_compute; reflexivity | vm_compute; reflexivity | lia |].
  vm_compute in Hname. injection Hname as <-. split; [exact Hmodel|].
  exists menu. exact Hswitch.
Defined.

Lemma other_selection_cancels_witness :
  ∃ menu,
    switch_models (H:=Replay.runtime) (Ok (lit "gpt-4")) fresh
    = (Ok (), fresh, menu ++ [Print (lit "Cancelled."); Print []]).
Proof.
  apply (@other_selection_cancels Replay.runtime (lit "gpt-4") fresh).
  right. vm_compute. reflexivity.
Defined.


(** ** More on [show_history] *)

Section Display.
Context `{Runtime}.

Lemma history_loop_texts clock k h :
  Forall is_text h →
  history_loop clock k h
  = (Ok (), imap (λ i m, Print (text_line clock (k + i) (role m) (text_of m))) h).
Proof.
  intros Hh. revert k. induction Hh as [|m h [s Hs] _ IH]; intros k; cbn; [done|].
  rewrite (history_line_text _ _ _ _ Hs), (IH (S k)). cbn.
  replace (text_of m) with s by (unfold text_of; by rewrite Hs).
  rewrite Nat.add_0_r. do 2 f_equal. apply imap_ext. intros i x _. cbn.
  by rewrite Nat.add_succ_r.
Qed.

(** X15.  On a transcript of texts [show_history] returns, and prints:
    for an empty transcript the single line saying so; otherwise the
    heading with the number of messages, a rule, one line per message in
    order, numbered from 1, with ["You"] for the user and ["AI"] for the
    assistant, and an empty line. *)
Theorem show_history_of_texts clock self :
  Forall is_text (conversation_history self) →
  show_history clock self
  = (Ok (),
     match conversation_history self with
     | [] => [Print (nl ++ lit "📝 No conversation history yet.")]
     | h =>
       [Print (nl ++ lit "📝 Conversation History (" ++ str_of_int (Z.of_nat (length h))
               ++ lit " messages):");
        Print (replicate 50 45)]
       ++ imap (λ k m, Print (text_line clock k (role m) (text_of m))) h
       ++ [Print []]
     end).
Proof.
  intros Hh. unfold show_history. destruct (conversation_history self) as [|m h]; [done|].
  by rewrite (history_loop_texts _ _ _ Hh).
Qed.

Lemma history_loop_stops clock k pre msg post e :
  Forall is_text pre →
  display_content (content msg) = Raise e →
  history_loop clock k (pre ++ msg :: post)
  = (Raise e, imap (λ i m, Print (text_line clock (k + i) (role m) (text_of m))) pre).
Proof.
  intros Hpre He. revert k. induction Hpre as [|m pre [s Hs] _ IH]; intros k; cbn.
  - unfold history_line. by rewrite He.
  - rewrite (history_line_text _ _ _ _ Hs), (IH (S k)). cbn.
    replace (text_of m) with s by (unfold text_of; by rewrite Hs).
    rewrite Nat.add_0_r. do 2 f_equal. apply imap_ext. intros i x _. cbn.
    by rewrite Nat.add_succ_r.
Qed.

(** X16.  The display stops at the first message whose content cannot
    be shown (a content that has no length, such as [null] or a number;
    a list of more than 100 items): the heading and the lines of the
    messages before it have been printed, the exception leaves the
    method, and neither the later messages nor the closing empty line are
    printed. *)
Theorem show_history_stops_at_undisplayable clock self pre msg post e :
  conversation_history self = pre ++ msg :: post →
  Forall is_text pre →
  display_content (content msg) = Raise e →
  show_history clock self
  = (Raise e,
     [Print (nl ++ lit "📝 Conversation History ("
             ++ str_of_int (Z.of_nat (length (pre ++ msg :: post))) ++ lit " messages):");
      Print (replicate 50 45)]
     ++ imap (λ k m, Print (text_line clock k (role m) (text_of m))) pre).
Proof.
  intros Hh Hpre He. unfold show_history. rewrite Hh.
  rewrite (history_loop_stops _ _ _ _ _ _ Hpre He). by destruct pre.
Qed.
End Display.

Lemma show_history_of_texts_witness :
  show_history (H:=Replay.runtime) (λ _, lit "09:30") two_messages
  = (Ok (),
     [Print (nl ++ lit "📝 Conversation History (2 messages):");
      Print (replicate 50 45);
      Print (lit " 1. [09:30] You: " ++ replicate 100 98);
      Print (lit " 2. [09:30] AI: " ++ replicate 100 97 ++ lit "...");
      Print []]).
Proof.
  refine (@show_history_of_texts Replay.runtime (λ _, lit "09:30") two_messages _).
  repeat constructor; by eexists.
Defined.

Lemma show_history_stops_at_undisplayable_witness :
  show_history (H:=Replay.runtime) (λ _, lit "09:30") null_reply
  = (Raise (TypeError OpLen PNone),
     [Print (nl ++ lit "📝 Conversation History (2 messages):");
      Print (replicate 50 45);
      Print (lit " 1. [09:30] You: hello")]).
Proof.
  refine (@show_history_stops_at_undisplayable Replay.runtime (λ _, lit "09:30") null_reply
            [{| role := user; content := PStr (lit "hello") |}]
            {| role := assistant; content := PNone |} [] (TypeError OpLen PNone)
            eq_refl _ eq_refl).
  repeat constructor; by eexists.
Defined.

(** ** More on the loop *)

Lemma not_a_command_inv command :
  command ∉ commands →
  (command ∉ [lit "quit"; lit "exit"; lit "bye"])
  ∧ command ≠ lit "clear" ∧ command ≠ lit "help" ∧ command ≠ lit "history"
  ∧ command ≠ lit "reset" ∧ command ≠ lit "model" ∧ command ≠ lit "models".
Proof.
  intros Hnot. repeat split; intros Hin; apply Hnot; unfold commands.
  - rewrite !elem_of_cons in Hin. rewrite !elem_of_cons. tauto.
  - subst. rewrite !elem_of_cons. tauto.
  - subst. rewrite !elem_of_cons. tauto.
  - subst. rewrite !elem_of_cons. tauto.
  - subst. rewrite !elem_of_cons. tauto.
  - subst. rewrite !elem_of_cons. tauto.
  - subst. rewrite !elem_of_cons. tauto.
Qed.

Section Loop.
Context `{Runtime}.

(** A turn whose text is not a command is a call with the stripped text. *)
Lemma loop_try_chat t self line :
  typed t = Ok line →
  str_strip line ≠ [] →
  str_lower (str_strip line) ∉ commands →
  loop_try t self
  = match make_api_request (urlopen t) (str_strip line) self with
    | (Ok response, self') =>
      (Ok Continue, self',
       [Prompt (nl ++ lit "💬 You: ")]
       ++ [Print (nl ++ lit "🤔 AI is thinking...");
           Print (nl ++ lit "🤖 AI: " ++ str_of response)])
    | (Raise e, self') =>
      (Raise e, self',
       [Prompt (nl ++ lit "💬 You: ")] ++ [Print (nl ++ lit "🤔 AI is thinking...")])
    end.
Proof.
  intros Htyped Hne Hnot.
  apply not_a_command_inv in Hnot
    as (Hquit & Hclear & Hhelp & Hhistory & Hreset & Hmodel & Hmodels).
  unfold loop_try. rewrite Htyped. by rewrite !bool_decide_false by done.
Qed.

(** X17.  A line that is not one of the nine commands is sent as it was
    typed, stripped of surrounding white space but not lower-cased: the
    turn is a call of [make_api_request] with that text, its reply is
    printed after ["🤖 AI: "], and the loop goes on; an exception leaving
    the call is reported and the loop goes on, unless it is an
    interrupt. *)
Theorem chat_turn_sends_stripped_text t self line :
  typed t = Ok line →
  str_strip line ≠ [] →
  str_lower (str_strip line) ∉ commands →
  loop_body t self
  = match make_api_request (urlopen t) (str_strip line) self with
    | (Ok response, self') =>
      (Continue, self',
       [Prompt (nl ++ lit "💬 You: ");
        Print (nl ++ lit "🤔 AI is thinking...");
        Print (nl ++ lit "🤖 AI: " ++ str_of response)])
    | (Raise e, self') =>
      if is_Exception e
      then (Continue, self',
            [Prompt (nl ++ lit "💬 You: ");
             Print (nl ++ lit "🤔 AI is thinking...");
             Print (nl ++ lit "❌ Unexpected error: " ++ exc_str e);
             Print (lit "Please try again or type 'quit' to exit.")])
      else (Break, self',
            [Prompt (nl ++ lit "💬 You: ");
             Print (nl ++ lit "🤔 AI is thinking...");
             Print INTERRUPTED])
    end.
Proof.
  intros Htyped Hne Hnot. unfold loop_body.
  rewrite (loop_try_chat _ _ _ Htyped Hne Hnot).
  by destruct (make_api_request _ _ _) as [[response|e] self'].
Qed.


(** X19.  [quit], [exit] and [bye], in any case and with white space
    around, end the loop with the farewell and leave the object as it
    was; nothing typed after them is read. *)
Theorem quit_ends_the_loop t rest self line :
  typed t = Ok line →
  str_strip line ≠ [] →
  str_lower (str_strip line) ∈ [lit "quit"; lit "exit"; lit "bye"] →
  run_loop (t :: rest) self
  = (self, [Prompt (nl ++ lit "💬 You: ");
            Print (nl ++ lit "👋 Goodbye! Thanks for chatting with me!")]).
Proof.
  intros Htyped Hne Hquit. cbn. unfold loop_body, loop_try. rewrite Htyped.
  rewrite bool_decide_false by done. by rewrite bool_decide_true by done.
Qed.

(** X20.  An [Exception] raised by [input] at the prompt (the end of
    standard input is one) does not end the loop: every such turn prints
    the prompt and the two lines of the generic handler, changes nothing,
    and the loop asks again. *)
Theorem failing_input_never_ends_the_loop turns self :
  Forall (λ t, ∃ e, typed t = Raise e ∧ is_Exception e = true) turns →
  (run_loop turns self).1 = self
  ∧ length (run_loop turns self).2 = (3 * length turns)%nat.
Proof.
  induction 1 as [|t turns (e & Htyped & Hexc) _ [IHs IHl]]; cbn; [done|].
  unfold loop_body, loop_try. rewrite Htyped, Hexc.
  destruct (run_loop turns self) as [self' out]. cbn in *. split; [done|]. lia.
Qed.

(** X21.  An interrupt during a call is not swallowed by the handlers of
    [make_api_request]: it leaves the call, the loop says goodbye and
    ends; the user message of the turn is already in the transcript. *)
Theorem interrupt_during_call_ends_the_loop t self line :
  typed t = Ok line →
  str_strip line ≠ [] →
  str_lower (str_strip line) ∉ commands →
  urlopen t (request_for (with_user (str_strip line) self)) = Raise KeyboardInterrupt →
  make_api_request (urlopen t) (str_strip line) self
  = (Raise KeyboardInterrupt, with_user (str_strip line) self)
  ∧ loop_body t self
    = (Break, with_user (str_strip line) self,
       [Prompt (nl ++ lit "💬 You: ");
        Print (nl ++ lit "🤔 AI is thinking...");
        Print INTERRUPTED]).
Proof.
  intros Htyped Hne Hnot Hnet.
  assert (make_api_request (urlopen t) (str_strip line) self
          = (Raise KeyboardInterrupt, with_user (str_strip line) self)) as Hcall.
  { rewrite make_api_request_unfold. unfold try_body. by rewrite Hnet. }
  split; [done|]. unfold loop_body.
  by rewrite (loop_try_chat _ _ _ Htyped Hne Hnot), Hcall.
Qed.
End Loop.

Lemma chat_turn_sends_stripped_text_witness :
  loop_body (H:=Replay.runtime) (says "  Hello THERE ") fresh
  = (Continue,
     with_assistant (PStr (lit "hi")) (with_user (lit "Hello THERE") fresh),
     [Prompt (nl ++ lit "💬 You: ");
      Print (nl ++ lit "🤔 AI is thinking...");
      Print (nl ++ lit "🤖 AI: hi")]).
Proof.
  refine (@chat_turn_sends_stripped_text Replay.runtime (says "  Hello THERE ") fresh
            (lit "  Hello THERE ") eq_refl _ _).
  - vm_compute. discriminate.
  - intros Hin. unfold commands in Hin.
    repeat (apply elem_of_cons in Hin as [Hin|Hin]; [by vm_compute in Hin|]).
    by apply elem_of_nil in Hin.
Defined.


Lemma quit_ends_the_loop_witness :
  run_loop (H:=Replay.runtime) [says " Exit "; says "hello"] two_messages
  = (two_messages, [Prompt (nl ++ lit "💬 You: ");
                    Print (nl ++ lit "👋 Goodbye! Thanks for chatting with me!")]).
Proof.
  refine (@quit_ends_the_loop Replay.runtime (says " Exit ") [says "hello"] two_messages
            (lit " Exit ") eq_refl _ _).
  - vm_compute. discriminate.
  - replace (str_lower (str_strip (lit " Exit "))) with (lit "exit")
      by (vm_compute; reflexivity).
    rewrite !elem_of_cons. tauto.
Defined.

Lemma failing_input_never_ends_the_loop_witness :
  (run_loop (H:=Replay.runtime) [end_of_input; end_of_input; end_of_input] fresh).1 = fresh
  ∧ length (run_loop (H:=Replay.runtime) [end_of_input; end_of_input; end_of_input] fresh).2
    = (3 * 3)%nat.
Proof.
  apply (@failing_input_never_ends_the_loop Replay.runtime
           [end_of_input; end_of_input; end_of_input] fresh).
  repeat constructor; by exists EOFError.
Defined.

Lemma interrupt_during_call_ends_the_loop_witness :
  make_api_request (H:=Replay.runtime) (urlopen interrupted_call) (lit "hello") fresh
  = (Raise KeyboardInterrupt, with_user (lit "hello") fresh)
  ∧ loop_body (H:=Replay.runtime) interrupted_call fresh
    = (Break, with_user (lit "hello") fresh,
       [Prompt (nl ++ lit "💬 You: ");
        Print (nl ++ lit "🤔 AI is thinking...");
        Print INTERRUPTED]).
Proof.
  refine (@interrupt_during_call_ends_the_loop Replay.runtime interrupted_call fresh
            (lit "hello") eq_refl _ _ eq_refl).
  - vm_compute. discriminate.
  - intros Hin. unfold commands in Hin.
    repeat (apply elem_of_cons in Hin as [Hin|Hin]; [by vm_compute in Hin|]).
    by apply elem_of_nil in Hin.
Defined.

(** ** Bodies of an unexpected shape *)

Section Shapes.
Context `{Runtime}.

(** X22.  A 2xx body that is valid JSON but not an object never yields a
    reply: a number, a boolean or [null] makes the test ['choices' in
    result] raise, which is reported; an array or a string is searched
    for ["choices"], and gives the apology when it does not hold it and a
    reported [TypeError] when it does. *)
Theorem body_that_is_not_an_object net message self body text parsed :
  net (request_for (with_user message self)) = Ok body →
  bytes_decode body = Ok text →
  json_loads text = Ok parsed →
  (∀ d, parsed ≠ PDict d) →
  make_api_request net message self
  = (Ok (PStr match parsed with
              | PList l =>
                if existsb (is_str (lit "choices")) l
                then ERROR_PREFIX
                     ++ exc_str (TypeError (OpGetItem (Key (lit "choices"))) parsed)
                else APOLOGY
              | PStr s =>
                if occurs_in (lit "choices") s
                then ERROR_PREFIX
                     ++ exc_str (TypeError (OpGetItem (Key (lit "choices"))) parsed)
                else APOLOGY
              | _ => ERROR_PREFIX ++ exc_str (TypeError OpIn parsed)
              end),
     with_user message self).
Proof.
  intros Hnet Hbody Hparse Hnot. rewrite (answered_request _ _ _ _ _ _ Hnet Hbody Hparse).
  destruct parsed as [| | | |s|l|d]; try done.
  - unfold extract_response. cbn. by destruct (occurs_in _ _).
  - unfold extract_response. cbn. by destruct (existsb _ _).
  - by destruct (Hnot d).
Qed.

(** X23.  When the body is an object whose [choices] is not an array,
    no reply is appended either: an empty string or an empty object
    counts as no choice and gives the apology; anything else makes
    [len], [choices[0]] or the lookup of [message] raise, which is
    reported. *)
Theorem choices_that_is_not_an_array net message self body text d c :
  net (request_for (with_user message self)) = Ok body →
  bytes_decode body = Ok text →
  json_loads text = Ok (PDict d) →
  dict_get (lit "choices") d = Some c →
  (∀ l, c ≠ PList l) →
  make_api_request net message self
  = (Ok (PStr match c with
              | PStr [] => APOLOGY
              | PStr (ch :: _) =>
                ERROR_PREFIX
                ++ exc_str (TypeError (OpGetItem (Key (lit "message"))) (PStr [ch]))
              | PDict [] => APOLOGY
              | PDict _ => ERROR_PREFIX ++ exc_str (KeyError (PInt 0))
              | _ => ERROR_PREFIX ++ exc_str (TypeError OpLen c)
              end),
     with_user message self).
Proof.
  intros Hnet Hbody Hparse Hd Hnot. rewrite (answered_request _ _ _ _ _ _ Hnet Hbody Hparse).
  unfold extract_response. rewrite dict_has_key, Hd. cbn. rewrite Hd. cbn.
  destruct c as [| | | |[|ch s]|l|[|kv cd]]; try done. by destruct (Hnot l).
Qed.
End Shapes.

Lemma body_that_is_not_an_object_witness :
  make_api_request (H:=Replay.runtime) (replies_with null_body) (lit "hello") fresh
  = (Ok (PStr (lit "❌ Error: argument of type 'NoneType' is not iterable")),
     with_user (lit "hello") fresh).
Proof.
  apply (@body_that_is_not_an_object Replay.runtime (replies_with null_body) (lit "hello")
           fresh null_body (lit "null") PNone); try reflexivity. discriminate.
Defined.

Lemma choices_that_is_not_an_array_witness :
  make_api_request (H:=Replay.runtime) (replies_with null_choices_body) (lit "hello") fresh
  = (Ok (PStr (lit "❌ Error: object of type 'NoneType' has no len()")),
     with_user (lit "hello") fresh).
Proof.
  apply (@choices_that_is_not_an_array Replay.runtime (replies_with null_choices_body)
           (lit "hello") fresh null_choices_body (byte_val <$> null_choices_body)
           [(lit "choices", PNone)] PNone); try reflexivity. discriminate.
Defined.

(** ** [show_model_info] *)

(** X24.  The line of the credential shows its first 20 and its last 10
    characters around ["..."]: of a key of 30 characters or more the
    middle is not printed, and a key of at most 10 characters is printed
    in full, twice. *)
Theorem credential_is_masked_in_the_middle self :
  (∀ a mid b,
     api_key self = a ++ mid ++ b → length a = 20%nat → length b = 10%nat →
     show_model_info self !! 4%nat
     = Some (Print (lit "  API Key: " ++ a ++ lit "..." ++ b)))
  ∧ ((length (api_key self) ≤ 10)%nat →
     show_model_info self !! 4%nat
     = Some (Print (lit "  API Key: " ++ api_key self ++ lit "..." ++ api_key self))).
Proof.
  assert (show_model_info self !! 4%nat
          = Some (Print (lit "  API Key: " ++ take 20 (api_key self) ++ lit "..."
                         ++ last_chars 10 (api_key self)))) as -> by reflexivity.
  split.
  - intros a mid b Hkey Ha Hb.
    assert (take 20 (api_key self) = a) as ->.
    { rewrite Hkey. by apply take_app_length'. }
    assert (last_chars 10 (api_key self) = b) as ->; [|done].
    unfold last_chars. rewrite Hkey, app_assoc. apply drop_app_length'.
    rewrite !length_app. lia.
  - intros Hlen. unfold last_chars. rewrite take_ge by lia.
    by replace (length (api_key self) - 10)%nat with O by lia.
Qed.

Lemma credential_is_masked_in_the_middle_witness :
  show_model_info fresh !! 4%nat
  = Some (Print (lit "  API Key: sk-or-v1-0123456789a...6789abcdef")).
Proof.
  exact (proj1 (credential_is_masked_in_the_middle fresh)
           (lit "sk-or-v1-0123456789a") (lit "bcdef012345") (lit "6789abcdef")
           eq_refl eq_refl eq_refl).
Defined.

